(** * FCM router of autopush: a shallow embedding of [autopush/router/fcm.py]

    The router validates a device registration ([register]), builds and
    sends one gateway request per notification ([_route]) and interprets
    the gateway's reply ([_process_reply]).  Python dictionaries are
    [gmap string _], dynamically typed values are [pyvalue], and the
    effects of the code (metric increments, log calls, the gateway call,
    raised exceptions) are threaded through a state-and-exception monad
    over [World]. *)

From Stdlib Require Import ZArith String Ascii List.
From stdpp Require Import gmap strings list fin_maps pretty.

Set Warnings "-register-all".

#[local] Open Scope string_scope.
#[local] Open Scope list_scope.
#[local] Open Scope Z_scope.

(** ** Python values *)

(** The JSON-like values that flow through the router: the gateway reply,
    the per-device routing data and the log fields. *)
Inductive pyvalue : Type :=
| PyNone
| PyBool (b : bool)
| PyInt (z : Z)
| PyStr (s : string)
| PyList (l : list pyvalue)
| PyDict (d : gmap string pyvalue).

Abbreviation pydict := (gmap string pyvalue).

(** Python truth value: [None], [False], [0], the empty string, the empty
    list and the empty dictionary are false, everything else is true. *)
Definition truthy (v : pyvalue) : bool :=
  match v with
  | PyNone => false
  | PyBool b => b
  | PyInt z => negb (Z.eqb z 0)
  | PyStr s => negb (String.eqb s EmptyString)
  | PyList l => match l with [] => false | _ :: _ => true end
  | PyDict d => negb (Nat.eqb (size d) 0)
  end.

(** [d.get(k)] and [d.get(k, dflt)] on a dictionary. *)
Definition dict_get (d : pydict) (k : string) : pyvalue :=
  default PyNone (d !! k).

Definition dict_get_default (d : pydict) (k : string) (dflt : pyvalue) : pyvalue :=
  default dflt (d !! k).

(** [x or 0] on an optional integer. *)
Definition or_zero (x : option Z) : Z :=
  match x with
  | Some t => if Z.eqb t 0 then 0 else t
  | None => 0
  end.

(** Truth value of an optional byte string ([None] and the empty string
    are false). *)
Definition bytes_truthy (x : option string) : bool :=
  match x with
  | Some s => negb (String.eqb s EmptyString)
  | None => false
  end.

Definition py_of_opt_str (x : option string) : pyvalue :=
  match x with Some s => PyStr s | None => PyNone end.

Definition py_of_opt_int (x : option Z) : pyvalue :=
  match x with Some z => PyInt z | None => PyNone end.

(** ** Collaborators: responses, exceptions, gateway, world *)

(** Modelled from the spec: [RouterResponse] of [autopush.router.interface],
    which is not among the sources.  The fields are the keyword arguments
    the router passes to its constructor (spec: statusCode, body, headers,
    routerDataPatch, loggedStatus, and the errno of the soft-failure
    branch); an argument that is not passed is [None]. *)
Record RouterResponse : Type := {
  resp_status_code : Z;
  resp_response_body : string;
  resp_router_data : option pydict;
  resp_headers : option pydict;
  resp_errno : option Z;
  resp_logged_status : option Z
}.

(** Modelled from the spec: [RouterException] of [autopush.exceptions]
    (the spec's RouterFailure: message, statusCode, errno?,
    shouldLogAsException), which is not among the sources.  Its
    constructor defaults are an empty [response_body],
    [log_exception=True] and [errno=None]. *)
Record RouterException : Type := {
  exc_message : string;
  exc_status_code : Z;
  exc_response_body : string;
  exc_log_exception : bool;
  exc_errno : option Z
}.

(** What a call can raise: the router's own failure signal, or one of the
    interpreter's exceptions on an unguarded access. *)
Inductive exn : Type :=
| RouterExc (e : RouterException)
| KeyError (k : pyvalue)
| IndexError
| AttributeError
| TypeError
| IOError (msg : string).

(** The request handed to [pyfcm]'s [notify_single_device]. *)
Record gateway_request : Type := {
  collapse_key : string;
  data_message : pydict;
  dry_run : bool;
  registration_id : pyvalue;
  time_to_live : Z
}.

(** The gateway client either raises (authentication, connection, any
    other exception) or returns the parsed reply. *)
Inductive gateway_outcome : Type :=
| GwAuthenticationError (e : string)
| GwConnectionError (e : string)
| GwException (e : string)
| GwReply (reply : pydict).

Inductive log_level : Type := Debug | Info | Warn | Error | Critical.

Record log_entry : Type := {
  log_lvl : log_level;
  log_format : string;
  log_fields : list (string * pyvalue)
}.

(** The observable environment: calls received by the metrics sink, by
    the logger and by the gateway client, oldest first. *)
Record World : Type := {
  metrics : list string;
  logs : list log_entry;
  gateway_calls : list gateway_request
}.

Definition empty_world : World :=
  {| metrics := []; logs := []; gateway_calls := [] |}.

(** How often a counter has been incremented. *)
Definition counter (name : string) (w : World) : nat :=
  count_occ string_dec (metrics w) name.

(** ** The state-and-exception monad *)

Inductive Result (A : Type) : Type :=
| Ok (a : A)
| Raise (e : exn).
Arguments Ok {A} a.
Arguments Raise {A} e.

Definition M (A : Type) : Type := World -> Result A * World.

#[global] Instance M_ret : MRet M := fun A (a : A) (w : World) => (Ok a, w).

#[global] Instance M_bind : MBind M :=
  fun A B (f : A -> M B) (m : M A) (w : World) =>
    match m w with
    | (Ok a, w') => f a w'
    | (Raise e, w') => (Raise e, w')
    end.

Definition raise {A : Type} (e : exn) : M A := fun w => (Raise e, w).

Definition when (c : bool) (m : M unit) : M unit :=
  if c then m else mret tt.

(** The three ways the world is extended. *)
Definition record_metric (name : string) (w : World) : World :=
  {| metrics := metrics w ++ [name];
     logs := logs w;
     gateway_calls := gateway_calls w |}.

Definition record_log (entry : log_entry) (w : World) : World :=
  {| metrics := metrics w;
     logs := logs w ++ [entry];
     gateway_calls := gateway_calls w |}.

Definition record_call (req : gateway_request) (w : World) : World :=
  {| metrics := metrics w;
     logs := logs w;
     gateway_calls := gateway_calls w ++ [req] |}.

(** [self.metrics.increment(name, self._base_tags)] *)
Definition increment (name : string) : M unit :=
  fun w => (Ok tt, record_metric name w).

(** [self.log.<level>(format, **fields)] *)
Definition log (lvl : log_level) (fmt : string)
    (fields : list (string * pyvalue)) : M unit :=
  fun w => (Ok tt, record_log {| log_lvl := lvl;
                                 log_format := fmt;
                                 log_fields := fields |} w).

(** [d[k]]: raises [KeyError] when the key is missing. *)
Definition getitem {V : Type} (d : gmap string V) (k : string) : M V :=
  match d !! k with
  | Some v => mret v
  | None => raise (KeyError (PyStr k))
  end.

(** [v[0]] on an arbitrary value. *)
Definition getitem0 (v : pyvalue) : M pyvalue :=
  match v with
  | PyList (x :: _) => mret x
  | PyList [] => raise IndexError
  | PyStr (String c _) => mret (PyStr (String c EmptyString))
  | PyStr EmptyString => raise IndexError
  | PyDict _ => raise (KeyError (PyInt 0))
  | PyNone | PyBool _ | PyInt _ => raise TypeError
  end.

(** [v.get(k, dflt)] on an arbitrary value: only dictionaries have [get]. *)
Definition py_get (v : pyvalue) (k : string) (dflt : pyvalue) : M pyvalue :=
  match v with
  | PyDict d => mret (dict_get_default d k dflt)
  | _ => raise AttributeError
  end.

(** [len(notification.data)]: [len(None)] is a [TypeError]. *)
Definition len_bytes (x : option string) : M Z :=
  match x with
  | Some s => mret (Z.of_nat (String.length s))
  | None => raise TypeError
  end.

(** ** The router *)

(** One entry of the reason table; the [crit] key is optional. *)
Record ReasonEntry : Type := {
  msg : string;
  err : Z;
  errno : Z;
  crit : option bool
}.

Definition reasonTable : gmap string ReasonEntry :=
  list_to_map [
    ("MissingRegistration",
     {| msg := "'to' or 'registration_id' is blank or invalid: {regid}";
        err := 500; errno := 1; crit := None |});
    ("InvalidRegistration",
     {| msg := "registration_id is invalid: {regid}";
        err := 410; errno := 105; crit := None |});
    ("NotRegistered",
     {| msg := "device has unregistered with FCM: {regid}";
        err := 410; errno := 103; crit := None |});
    ("InvalidPackageName",
     {| msg := "Invalid Package Name specified";
        err := 500; errno := 2; crit := Some true |});
    ("MismatchSenderid",
     {| msg := "Invalid SenderID used: {senderid}";
        err := 410; errno := 105; crit := Some true |});
    ("MessageTooBig",
     {| msg := "Message length was too big: {nlen}";
        err := 413; errno := 104; crit := None |});
    ("InvalidDataKey",
     {| msg := "Payload contains an invalid or restricted key value";
        err := 500; errno := 3; crit := Some true |});
    ("InvalidTtl",
     {| msg := "Invalid TimeToLive {ttl}";
        err := 400; errno := 111; crit := None |});
    ("Unavailable",
     {| msg := "Message has timed out or device is unavailable";
        err := 200; errno := 0; crit := None |});
    ("InternalServerError",
     {| msg := "FCM internal server error";
        err := 500; errno := 999; crit := None |});
    ("DeviceMessageRateExceeded",
     {| msg := "Too many messages for this device";
        err := 503; errno := 4; crit := None |});
    ("TopicsMessageRateExceeded",
     {| msg := "Too many subscribers for this topic";
        err := 503; errno := 5; crit := Some true |});
    ("Unreported",
     {| msg := "Error has no reported reason.";
        err := 500; errno := 999; crit := Some true |})
  ].

Definition MAX_TTL : Z := 2419200.

(** The notification, as far as the router reads it. *)
Record Notification : Type := {
  channel_id_hex : string;
  data : option string;
  headers : gmap string string;
  ttl : option Z;
  version : string
}.

(** [router_conf]: every option may be missing. *)
Record RouterConf : Type := {
  conf_ttl : option Z;
  conf_dryrun : option bool;
  conf_collapseKey : option string;
  conf_senderID : option string;
  conf_auth : option string;
  conf_max_data : option Z
}.

Record Settings : Type := {
  endpoint_url : string
}.

Record FCMRouter : Type := {
  config : RouterConf;
  min_ttl : Z;
  dryRun : bool;
  collapseKey : string;
  senderID : option string;
  auth : option string;
  fcm : gateway_request -> gateway_outcome;
  ap_settings : Settings
}.

(** [FCMRouter.__init__]; [FCMNotification] is [pyfcm]'s constructor, which
    either raises an exception (given here by its text) or returns the
    client. *)
Definition __init__ (settings : Settings) (router_conf : RouterConf)
    (FCMNotification : option string ->
                       string + (gateway_request -> gateway_outcome))
    : M FCMRouter :=
  match FCMNotification (conf_auth router_conf) with
  | inl e =>
      log Error "Could not instantiate FCM {ex}" [("ex", PyStr e)] ;;
      raise (IOError "FCM Bridge not initiated in main")
  | inr client =>
      log Debug "Starting FCM router..." [] ;;
      mret {| config := router_conf;
              min_ttl := default 60 (conf_ttl router_conf);
              dryRun := default false (conf_dryrun router_conf);
              collapseKey := default "webpush" (conf_collapseKey router_conf);
              senderID := conf_senderID router_conf;
              auth := conf_auth router_conf;
              fcm := client;
              ap_settings := settings |}
  end.

(** [FCMRouter._error]: logs at debug level and returns (does not raise)
    the [RouterException]. *)
Definition _error (e : string) (status : Z) (eno : option Z)
    (log_exc : option bool) (extra : list (string * pyvalue))
    : M RouterException :=
  log Debug e (extra
               ++ match eno with Some n => [("errno", PyInt n)] | None => [] end
               ++ match log_exc with
                  | Some b => [("log_exception", PyBool b)]
                  | None => []
                  end) ;;
  mret {| exc_message := e;
          exc_status_code := status;
          exc_response_body := e;
          exc_log_exception := default true log_exc;
          exc_errno := eno |}.

(** [repr] of a byte string ([app_id] is a [str], see the type comment of
    [register]), as Python 2 writes it: the quote is a single quote, or a
    double quote when the string holds a single quote and no double
    quote; the quote and the backslash are escaped with a backslash, tab,
    newline and carriage return are written with their letter, and every
    other byte below 32 or from 127 on as backslash, x and two lower-case
    hexadecimal digits. *)
Definition double_quote : ascii := ascii_of_nat 34.

Fixpoint string_mem (c : ascii) (s : string) : bool :=
  match s with
  | EmptyString => false
  | String c' s' => Ascii.eqb c c' || string_mem c s'
  end.

Definition hex_digit (d : nat) : ascii :=
  nth d ["0"; "1"; "2"; "3"; "4"; "5"; "6"; "7"; "8"; "9";
         "a"; "b"; "c"; "d"; "e"; "f"]%char "0"%char.

Definition repr_char (quote c : ascii) : string :=
  let k := nat_of_ascii c in
  if Ascii.eqb c quote || Ascii.eqb c "\"%char then
    String "\"%char (String c EmptyString)
  else if Nat.eqb k 9 then String "\"%char (String "t"%char EmptyString)
  else if Nat.eqb k 10 then String "\"%char (String "n"%char EmptyString)
  else if Nat.eqb k 13 then String "\"%char (String "r"%char EmptyString)
  else if Nat.ltb k 32 || Nat.leb 127 k then
    String "\"%char
      (String "x"%char
         (String (hex_digit (Nat.div k 16))
            (String (hex_digit (Nat.modulo k 16)) EmptyString)))
  else String c EmptyString.

Fixpoint repr_body (quote : ascii) (s : string) : string :=
  match s with
  | EmptyString => String quote EmptyString
  | String c s' => repr_char quote c +:+ repr_body quote s'
  end.

Definition repr_str (s : string) : string :=
  let quote := if string_mem "'"%char s && negb (string_mem double_quote s)
               then double_quote else "'"%char in
  String quote (repr_body quote s).

(** [FCMRouter.amend_endpoint_response]; returns the response dictionary
    after the assignment. *)
Definition amend_endpoint_response (response router_data : pydict)
    : M pydict :=
  sid ← py_get (dict_get_default router_data "creds" (PyDict ∅))
               "senderID" PyNone;
  mret (<["senderid" := sid]> response).

(** [FCMRouter.register]; the dictionary is updated in place by the
    source, here the call returns the dictionary as it is afterwards (a
    call that raises has not touched it). *)
Definition register (self : FCMRouter) (uaid : string) (router_data : pydict)
    (app_id : string) (uri : option string) : M pydict :=
  let senderid := app_id in
  when (negb (bool_decide (is_Some (router_data !! "token"))))
    (e ← _error "connect info missing FCM Instance 'token'" 401 None None
                [("uri", py_of_opt_str uri);
                 ("senderid", PyStr (repr_str senderid))];
     raise (RouterExc e)) ;;
  when (negb (bool_decide (Some senderid = senderID self)))
    (e ← _error "Invalid SenderID" 410 (Some 105) None [];
     raise (RouterExc e)) ;;
  mret (<["creds" := PyDict {[ "senderID" := py_of_opt_str (senderID self);
                               "auth" := py_of_opt_str (auth self) ]}]>
          router_data).

(** [self.reasonTable.get(reason)]: a list or a dictionary cannot be
    hashed; any other value that is not a key gives [None]. *)
Definition reasonTable_get (reason : pyvalue) : M (option ReasonEntry) :=
  match reason with
  | PyStr s => mret (reasonTable !! s)
  | PyList _ | PyDict _ => raise TypeError
  | PyNone | PyBool _ | PyInt _ => mret None
  end.

(** [e.get(...)] and [e[...]] on the looked-up entry: [None] has neither. *)
Definition entry_of (e : option ReasonEntry) : M ReasonEntry :=
  match e with
  | Some entry => mret entry
  | None => raise AttributeError
  end.

(** [FCMRouter._process_reply] *)
Definition _process_reply (self : FCMRouter) (reply : pydict)
    (notification : Notification) (router_data : pydict) (ttl_ : Z)
    : M RouterResponse :=
  result ← getitem0 (dict_get_default reply "results" (PyList [PyDict ∅]));
  if truthy (dict_get reply "canonical_ids") then
    old_id ← getitem router_data "token";
    new_id ← py_get result "registration_id" PyNone;
    log Info "FCM id changed : {old} => {new}"
        [("old", old_id); ("new", new_id)] ;;
    increment "updates.client.bridge.fcm.failed.rereg" ;;
    mret {| resp_status_code := 503;
            resp_response_body := "Please try request again.";
            resp_router_data := Some {[ "token" := new_id ]};
            resp_headers := None;
            resp_errno := None;
            resp_logged_status := None |}
  else if truthy (dict_get reply "failure") then
    increment "updates.client.bridge.fcm.failed" ;;
    reason ← py_get result "error" (PyStr "Unreported");
    looked_up ← reasonTable_get reason;
    entry ← entry_of looked_up;
    if default false (crit entry) then
      nlen ← len_bytes (data notification);
      regid ← getitem router_data "token";
      log Critical (msg entry)
          [("nlen", PyInt nlen); ("regid", regid);
           ("senderid", py_of_opt_str (senderID self));
           ("ttl", py_of_opt_int (ttl notification))] ;;
      raise (RouterExc {| exc_message := "FCM failure to deliver";
                          exc_status_code := err entry;
                          exc_response_body := "Please try request later.";
                          exc_log_exception := false;
                          exc_errno := None |})
    else
      creds ← getitem router_data "creds";
      rid ← py_get creds "registration_id" PyNone;
      log Info "{msg} : {info}"
          [("msg", PyStr (msg entry));
           ("info", PyDict {[ "senderid" := rid; "reason" := reason ]})] ;;
      mret {| resp_status_code := err entry;
              resp_response_body := msg entry;
              resp_router_data := Some ∅;
              resp_headers := None;
              resp_errno := Some (errno entry);
              resp_logged_status := None |}
  else
    increment "updates.client.bridge.fcm.succeeded" ;;
    let location := endpoint_url (ap_settings self) +:+ "/m/"
                    +:+ version notification in
    mret {| resp_status_code := 201;
            resp_response_body := EmptyString;
            resp_router_data := None;
            resp_headers := Some {[ "TTL" := PyInt ttl_;
                                    "Location" := PyStr location ]};
            resp_errno := None;
            resp_logged_status := Some 200 |}.

(** [self.fcm.notify_single_device(...)]: the call is recorded and the
    client's outcome returned. *)
Definition notify_single_device (self : FCMRouter) (req : gateway_request)
    : M gateway_outcome :=
  fun w => (Ok (fcm self req), record_call req w).

(** [FCMRouter._route] *)
Definition _route (self : FCMRouter) (notification : Notification)
    (router_data : pydict) : M RouterResponse :=
  let data_ : pydict := {[ "chid" := PyStr (channel_id_hex notification) ]} in
  when (negb (truthy (dict_get router_data "token")))
    (e ← _error ("No registration token found. " +:+ "Rejecting message.")
                410 (Some 106) (Some false) [];
     raise (RouterExc e)) ;;
  let regid := dict_get router_data "token" in
  data_ ← (if bytes_truthy (data notification) then
              let body := default EmptyString (data notification) in
              let mdata := default 4096 (conf_max_data (config self)) in
              when (Z.ltb mdata (Z.of_nat (String.length body)))
                (e ← _error ("This message is intended for a "
                             +:+ "constrained device and is limited "
                             +:+ "to 3070 bytes. Converted buffer too "
                             +:+ ("long by "
                                  +:+ pretty (Z.of_nat (String.length body)
                                              - mdata)
                                  +:+ " bytes"))
                            413 (Some 104) (Some false) [];
                 raise (RouterExc e)) ;;
              let data_ := <["body" := PyStr body]> data_ in
              con ← getitem (headers notification) "encoding";
              let data_ := <["con" := PyStr con]> data_ in
              enc ← getitem (headers notification) "encryption";
              let data_ := <["enc" := PyStr enc]> data_ in
              match headers notification !! "crypto_key" with
              | Some ck => mret (<["cryptokey" := PyStr ck]> data_)
              | None =>
                  match headers notification !! "encryption_key" with
                  | Some ek => mret (<["enckey" := PyStr ek]> data_)
                  | None => mret data_
                  end
              end
            else mret data_);
  let router_ttl := Z.min MAX_TTL
                      (Z.max (min_ttl self) (or_zero (ttl notification))) in
  outcome ← notify_single_device self
              {| collapse_key := collapseKey self;
                 data_message := data_;
                 dry_run := dryRun self
                            || bool_decide (is_Some (router_data !! "dryrun"));
                 registration_id := regid;
                 time_to_live := router_ttl |};
  match outcome with
  | GwAuthenticationError e =>
      log Error ("Authentication Error: " +:+ e) [] ;;
      raise (RouterExc {| exc_message := "Server error";
                          exc_status_code := 500;
                          exc_response_body := EmptyString;
                          exc_log_exception := true;
                          exc_errno := None |})
  | GwConnectionError e =>
      increment "updates.client.bridge.fcm.connection_err" ;;
      log Warn ("Could not connect to FCM server: " +:+ e) [] ;;
      raise (RouterExc {| exc_message := "Server error";
                          exc_status_code := 502;
                          exc_response_body := EmptyString;
                          exc_log_exception := false;
                          exc_errno := None |})
  | GwException e =>
      log Error ("Unhandled FCM Error: " +:+ e) [] ;;
      raise (RouterExc {| exc_message := "Server error";
                          exc_status_code := 500;
                          exc_response_body := EmptyString;
                          exc_log_exception := true;
                          exc_errno := None |})
  | GwReply result =>
      increment "updates.client.bridge.fcm.attempted" ;;
      _process_reply self result notification router_data router_ttl
  end.

(** [FCMRouter.route_notification]: the whole of [_route] is handed to a
    worker thread; the deferred fires with what [_route] returns or
    raises, which is what this returns or raises. *)
Definition route_notification (self : FCMRouter) (notification : Notification)
    (uaid_data : pydict) : M RouterResponse :=
  router_data ← getitem uaid_data "router_data";
  match router_data with
  | PyDict d => _route self notification d
  | _ => raise AttributeError
  end.

(** ** Vocabulary of the statements *)

(** The first result of a reply as the source reads it: the default
    one-element list when the key is missing, else the head of the list. *)
Definition first_result (reply : pydict) (r : pyvalue) : Prop :=
  (reply !! "results" = None /\ r = PyDict ∅)
  \/ (exists rest, reply !! "results" = Some (PyList (r :: rest))).

(** A computation that never calls the gateway client. *)
Definition no_gateway_call {A : Type} (m : M A) : Prop :=
  forall w, gateway_calls (snd (m w)) = gateway_calls w.

(** A computation that never raises the router's own failure signal. *)
Definition no_router_failure {A : Type} (m : M A) : Prop :=
  forall w e w', m w <> (Raise (RouterExc e), w').

(** The two outcomes the router's interface promises to its caller. *)
Definition router_outcome {A : Type} (r : Result A) : Prop :=
  match r with
  | Ok _ => True
  | Raise (RouterExc _) => True
  | Raise _ => False
  end.

(** The credentials [register] stores. *)
Definition creds_of (self : FCMRouter) : pyvalue :=
  PyDict {[ "senderID" := py_of_opt_str (senderID self);
            "auth" := py_of_opt_str (auth self) ]}.

(** ** Concrete routers, notifications and replies used in the examples *)

Definition ex_conf (max_data_ : option Z) : RouterConf :=
  {| conf_ttl := None;
     conf_dryrun := None;
     conf_collapseKey := None;
     conf_senderID := Some "sender-1";
     conf_auth := Some "api-key";
     conf_max_data := max_data_ |}.

Definition ex_settings : Settings :=
  {| endpoint_url := "https://push.example.org" |}.

(** The router [__init__] builds from [ex_conf] around a given client. *)
Definition ex_router (max_data_ : option Z)
    (client : gateway_request -> gateway_outcome) : FCMRouter :=
  {| config := ex_conf max_data_;
     min_ttl := 60;
     dryRun := false;
     collapseKey := "webpush";
     senderID := Some "sender-1";
     auth := Some "api-key";
     fcm := client;
     ap_settings := ex_settings |}.

(** A gateway client that answers every request with the same reply. *)
Definition answering (reply : pydict) : gateway_request -> gateway_outcome :=
  fun _ => GwReply reply.

Definition ex_notification (payload : option string) (t : option Z)
    : Notification :=
  {| channel_id_hex := "0123456789abcdef0123456789abcdef";
     data := payload;
     headers := {[ "encoding" := "aesgcm"; "encryption" := "salt=abc" ]};
     ttl := t;
     version := "v1" |}.

Definition ex_router_data : pydict :=
  {[ "token" := PyStr "old-token";
     "creds" := PyDict {[ "senderID" := PyStr "sender-1";
                          "auth" := PyStr "api-key" ]} ]}.

Definition ex_router_data_no_creds : pydict :=
  {[ "token" := PyStr "old-token" ]}.

Definition reply_of_error (reason : string) : pydict :=
  {[ "failure" := PyInt 1;
     "results" := PyList [PyDict {[ "error" := PyStr reason ]}] ]}.

(** A computation that only logs: no gateway call, no metric. *)
Definition log_only {A : Type} (m : M A) : Prop :=
  forall w, gateway_calls (snd (m w)) = gateway_calls w
            /\ metrics (snd (m w)) = metrics w.

(** The three counters of reply processing. *)
Definition reply_counters : list string :=
  ["updates.client.bridge.fcm.failed.rereg";
   "updates.client.bridge.fcm.failed";
   "updates.client.bridge.fcm.succeeded"].

(** The failure raised for any exception of the gateway client. *)
Definition server_error (status : Z) (log_exc : bool) : RouterException :=
  {| exc_message := "Server error";
     exc_status_code := status;
     exc_response_body := EmptyString;
     exc_log_exception := log_exc;
     exc_errno := None |}.

(** The failure raised when the routing data has no usable token. *)
Definition no_token_failure : RouterException :=
  {| exc_message := "No registration token found. Rejecting message.";
     exc_status_code := 410;
     exc_response_body := "No registration token found. Rejecting message.";
     exc_log_exception := false;
     exc_errno := Some 106 |}.

(** What a dispatch that has sent [req] to the gateway has done: only
    logged before the call, addressed the request to the token of the
    routing data, and continued according to the client's outcome. *)
Definition dispatched (self : FCMRouter) (n : Notification) (rd : pydict)
    (w : World) (req : gateway_request) (res : Result RouterResponse)
    (w' : World) : Prop :=
  exists w1,
    truthy (dict_get rd "token") = true
    /\ gateway_calls w1 = gateway_calls w /\ metrics w1 = metrics w
    /\ collapse_key req = collapseKey self
    /\ dry_run req = dryRun self || bool_decide (is_Some (rd !! "dryrun"))
    /\ registration_id req = dict_get rd "token"
    /\ time_to_live req
       = Z.min 2419200 (Z.max (min_ttl self) (default 0 (ttl n)))
    /\ match fcm self req with
       | GwAuthenticationError e =>
           (res, w')
           = (Raise (RouterExc (server_error 500 true)),
              record_log {| log_lvl := Error;
                            log_format := "Authentication Error: " +:+ e;
                            log_fields := [] |} (record_call req w1))
       | GwConnectionError e =>
           (res, w')
           = (Raise (RouterExc (server_error 502 false)),
              record_log
                {| log_lvl := Warn;
                   log_format := "Could not connect to FCM server: " +:+ e;
                   log_fields := [] |}
                (record_metric "updates.client.bridge.fcm.connection_err"
                   (record_call req w1)))
       | GwException e =>
           (res, w')
           = (Raise (RouterExc (server_error 500 true)),
              record_log {| log_lvl := Error;
                            log_format := "Unhandled FCM Error: " +:+ e;
                            log_fields := [] |} (record_call req w1))
       | GwReply reply =>
           (res, w')
           = _process_reply self reply n rd (time_to_live req)
               (record_metric "updates.client.bridge.fcm.attempted"
                  (record_call req w1))
       end.

(** The request a dispatch of [ex_notification] without payload sends for
    [ex_router_data]. *)
Definition ex_request (t : Z) : gateway_request :=
  {| collapse_key := "webpush";
     data_message := {[ "chid" := PyStr "0123456789abcdef0123456789abcdef" ]};
     dry_run := false;
     registration_id := PyStr "old-token";
     time_to_live := t |}.

(** A gateway client with the same outcome for every request. *)
Definition always (o : gateway_outcome) : gateway_request -> gateway_outcome :=
  fun _ => o.

Definition ex_notification_with (payload : option string)
    (hdrs : gmap string string) : Notification :=
  {| channel_id_hex := "0123456789abcdef0123456789abcdef";
     data := payload;
     headers := hdrs;
     ttl := Some 300;
     version := "v1" |}.

(** * Properties *)

(** ** Running the monad *)

Lemma run_bind_ok {A B : Type} (m : M A) (f : A -> M B) (w w' : World) (a : A) :
  m w = (Ok a, w') -> (m ≫= f) w = f a w'.
Proof. intros H. unfold mbind, M_bind. now rewrite H. Qed.

Lemma run_bind_raise {A B : Type} (m : M A) (f : A -> M B) (w w' : World)
    (e : exn) :
  m w = (Raise e, w') -> (m ≫= f) w = (Raise e, w').
Proof. intros H. unfold mbind, M_bind. now rewrite H. Qed.

Lemma first_result_run (reply : pydict) (r : pyvalue) (w : World) :
  first_result reply r ->
  getitem0 (dict_get_default reply "results" (PyList [PyDict ∅])) w = (Ok r, w).
Proof.
  unfold dict_get_default.
  intros [[-> ->] | [rest ->]]; reflexivity.
Qed.

Lemma or_zero_default (x : option Z) : or_zero x = default 0 x.
Proof.
  destruct x as [t|]; simpl; [|reflexivity].
  destruct (Z.eqb_spec t 0); congruence.
Qed.

Lemma counter_record_metric (name other : string) (w : World) :
  counter other (record_metric name w)
  = if decide (name = other) then S (counter other w) else counter other w.
Proof.
  unfold counter, record_metric; simpl.
  rewrite count_occ_app; simpl.
  destruct (string_dec name other), (decide (name = other));
    try congruence; lia.
Qed.

Lemma counter_record_log (entry : log_entry) (other : string) (w : World) :
  counter other (record_log entry w) = counter other w.
Proof. reflexivity. Qed.

(** The default entry of the reason table. *)
Lemma reasonTable_Unreported :
  reasonTable !! "Unreported"
  = Some {| msg := "Error has no reported reason.";
            err := 500; errno := 999; crit := Some true |}.
Proof. vm_compute. reflexivity. Qed.

(** ** Computations that leave the gateway alone *)

Section NoGatewayCall.
Context {A B : Type}.

Lemma ngc_ret (a : A) : no_gateway_call (mret a).
Proof. intros w. reflexivity. Qed.

Lemma ngc_raise (e : exn) : no_gateway_call (@raise A e).
Proof. intros w. reflexivity. Qed.

Lemma ngc_bind (m : M A) (f : A -> M B) :
  no_gateway_call m -> (forall a, no_gateway_call (f a)) ->
  no_gateway_call (m ≫= f).
Proof.
  intros Hm Hf w. unfold mbind, M_bind.
  specialize (Hm w). destruct (m w) as [[a|e] w1]; simpl in *.
  - now rewrite Hf.
  - exact Hm.
Qed.

Lemma ngc_if (c : bool) (m1 m2 : M A) :
  no_gateway_call m1 -> no_gateway_call m2 ->
  no_gateway_call (if c then m1 else m2).
Proof. now destruct c. Qed.
End NoGatewayCall.

Lemma ngc_log lvl fmt fields : no_gateway_call (log lvl fmt fields).
Proof. intros w. reflexivity. Qed.

Lemma ngc_increment name : no_gateway_call (increment name).
Proof. intros w. reflexivity. Qed.

Lemma ngc_getitem {V : Type} (d : gmap string V) k :
  no_gateway_call (getitem d k).
Proof. intros w. unfold getitem. now destruct (d !! k). Qed.

Lemma ngc_getitem0 v : no_gateway_call (getitem0 v).
Proof. intros w. destruct v as [| | |[|]|[|]|]; reflexivity. Qed.

Lemma ngc_py_get v k dflt : no_gateway_call (py_get v k dflt).
Proof. intros w. now destruct v. Qed.

Lemma ngc_len_bytes x : no_gateway_call (len_bytes x).
Proof. intros w. now destruct x. Qed.

Lemma ngc_entry_of e : no_gateway_call (entry_of e).
Proof. intros w. now destruct e. Qed.

Lemma ngc_reasonTable_get r : no_gateway_call (reasonTable_get r).
Proof. intros w. now destruct r. Qed.

Create HintDb ngc.
#[local] Hint Resolve ngc_ret ngc_raise ngc_log ngc_increment ngc_getitem
  ngc_getitem0 ngc_py_get ngc_len_bytes ngc_entry_of ngc_reasonTable_get : ngc.
#[local] Hint Extern 2 (no_gateway_call (_ ≫= _)) =>
  apply ngc_bind; [|intros ?] : ngc.
#[local] Hint Extern 2 (no_gateway_call (if _ then _ else _)) =>
  apply ngc_if : ngc.

Lemma ngc_process_reply self reply n rd t :
  no_gateway_call (_process_reply self reply n rd t).
Proof. unfold _process_reply. auto 20 with ngc. Qed.

(** ** Reply processing *)

(** Enter [_process_reply] on a reply whose first result is known. *)
Ltac enter_reply Hres :=
  unfold _process_reply;
  rewrite (run_bind_ok _ _ _ _ _ (first_result_run _ _ _ Hres)).

(** The failure branch up to the table lookup, for each way it can end. *)
Section FailureBranch.
Variables (self : FCMRouter) (reply : pydict) (n : Notification)
          (rd : pydict) (t : Z) (w : World) (r_d : pydict).
Hypothesis Hres : first_result reply (PyDict r_d).
Hypothesis Hcanon : truthy (dict_get reply "canonical_ids") = false.
Hypothesis Hfail : truthy (dict_get reply "failure") = true.

Lemma failure_branch_unknown (reason : string) :
  dict_get_default r_d "error" (PyStr "Unreported") = PyStr reason ->
  reasonTable !! reason = None ->
  _process_reply self reply n rd t w = (Raise AttributeError,
     record_metric "updates.client.bridge.fcm.failed" w).
Proof.
  intros Herr Hnone.
  enter_reply Hres. rewrite Hcanon, Hfail.
  unfold mbind at 1, M_bind at 1, increment. cbv beta iota.
  unfold mbind at 1, M_bind at 1, py_get, mret, M_ret. cbv beta iota.
  rewrite Herr.
  unfold mbind at 1, M_bind at 1, reasonTable_get, mret, M_ret. cbv beta iota.
  rewrite Hnone. reflexivity.
Qed.

Section Resolved.
Variables (reason : string) (entry : ReasonEntry).
Hypothesis Herr :
  dict_get_default r_d "error" (PyStr "Unreported") = PyStr reason.
Hypothesis Hentry : reasonTable !! reason = Some entry.

Lemma failure_branch_resolved :
  _process_reply self reply n rd t w
  = (if default false (crit entry) then
       nlen ← len_bytes (data n);
       regid ← getitem rd "token";
       log Critical (msg entry)
           [("nlen", PyInt nlen); ("regid", regid);
            ("senderid", py_of_opt_str (senderID self));
            ("ttl", py_of_opt_int (ttl n))] ;;
       raise (RouterExc {| exc_message := "FCM failure to deliver";
                           exc_status_code := err entry;
                           exc_response_body := "Please try request later.";
                           exc_log_exception := false;
                           exc_errno := None |})
     else
       creds ← getitem rd "creds";
       rid ← py_get creds "registration_id" PyNone;
       log Info "{msg} : {info}"
           [("msg", PyStr (msg entry));
            ("info", PyDict {[ "senderid" := rid;
                               "reason" := PyStr reason ]})] ;;
       mret {| resp_status_code := err entry;
               resp_response_body := msg entry;
               resp_router_data := Some ∅;
               resp_headers := None;
               resp_errno := Some (errno entry);
               resp_logged_status := None |})
      (record_metric "updates.client.bridge.fcm.failed" w).
Proof.
  enter_reply Hres. rewrite Hcanon, Hfail.
  unfold mbind at 1, M_bind at 1, increment. cbv beta iota.
  unfold mbind at 1, M_bind at 1, py_get, mret, M_ret. cbv beta iota.
  rewrite Herr.
  unfold mbind at 1, M_bind at 1, reasonTable_get, mret, M_ret. cbv beta iota.
  rewrite Hentry.
  unfold mbind at 1, M_bind at 1, entry_of, mret, M_ret. cbv beta iota.
  reflexivity.
Qed.
End Resolved.
End FailureBranch.

(** How the first result is extracted: the three shapes of [results]. *)
Lemma result_extraction (reply : pydict) (w : World) :
  let extract :=
    getitem0 (dict_get_default reply "results" (PyList [PyDict ∅])) in
  (reply !! "results" = None -> extract w = (Ok (PyDict ∅), w))
  /\ (forall x rest, reply !! "results" = Some (PyList (x :: rest)) ->
       extract w = (Ok x, w))
  /\ (reply !! "results" = Some (PyList []) -> extract w = (Raise IndexError, w)).
Proof.
  unfold dict_get_default. repeat split.
  - intros ->. reflexivity.
  - intros x rest ->. reflexivity.
  - intros ->. reflexivity.
Qed.

(** C5 (defect of the code).  A reply that carries a [results] key with an
    empty list is not processed with the empty record: indexing the empty
    list raises [IndexError] before any branch is taken, whatever the
    flags of the reply are.  (Only a reply without the key gets the empty
    record, see [result_extraction].) *)
Theorem empty_results_raise_index_error (self : FCMRouter) (reply : pydict)
    (n : Notification) (rd : pydict) (t : Z) (w : World) :
  reply !! "results" = Some (PyList []) ->
  _process_reply self reply n rd t w = (Raise IndexError, w).
Proof.
  intros Hres. unfold _process_reply.
  apply run_bind_raise.
  now apply result_extraction.
Qed.

Lemma empty_results_raise_index_error_witness :
  _process_reply (ex_router None (answering ∅))
    {[ "failure" := PyInt 0; "results" := PyList [] ]}
    (ex_notification None None) ex_router_data 60 empty_world
  = (Raise IndexError, empty_world).
Proof.
  apply empty_results_raise_index_error.
  vm_compute. reflexivity.
Defined.

(** The re-registration branch on the replies that reach it: for a reply
    with truthy [canonical_ids] whose first result is a record (no
    [results] key, or a list that starts with a record), processed for
    routing data that holds a token (dispatch has checked it), the answer
    is the 503 response asking to retry, its routing-data patch is the
    record's [registration_id] (None when the record has none), and the
    only metric call is one increment of the rereg counter. *)
Lemma rereg_reply (self : FCMRouter) (reply : pydict) (n : Notification)
    (rd : pydict) (t : Z) (w : World) (r_d : pydict) (old_id : pyvalue) :
  first_result reply (PyDict r_d) ->
  truthy (dict_get reply "canonical_ids") = true ->
  rd !! "token" = Some old_id ->
  exists w',
    _process_reply self reply n rd t w
    = (Ok {| resp_status_code := 503;
             resp_response_body := "Please try request again.";
             resp_router_data :=
               Some {[ "token" := dict_get r_d "registration_id" ]};
             resp_headers := None;
             resp_errno := None;
             resp_logged_status := None |}, w')
    /\ metrics w' = metrics w ++ ["updates.client.bridge.fcm.failed.rereg"]
    /\ counter "updates.client.bridge.fcm.failed.rereg" w'
       = S (counter "updates.client.bridge.fcm.failed.rereg" w)
    /\ gateway_calls w' = gateway_calls w.
Proof.
  intros Hres Hcanon Htok.
  eexists. split.
  - enter_reply Hres. rewrite Hcanon.
    unfold getitem. rewrite Htok. reflexivity.
  - split; [reflexivity|]. split; [|reflexivity].
    rewrite counter_record_metric. now rewrite decide_True.
Qed.

Example rereg_reply_example :
  exists w',
    _process_reply (ex_router None (answering ∅))
      {[ "canonical_ids" := PyInt 1;
         "results" := PyList [PyDict {[ "registration_id" := PyStr "new-token" ]}] ]}
      (ex_notification None None) ex_router_data 60 empty_world
    = (Ok {| resp_status_code := 503;
             resp_response_body := "Please try request again.";
             resp_router_data :=
               Some {[ "token" :=
                         dict_get {[ "registration_id" := PyStr "new-token" ]}
                                  "registration_id" ]};
             resp_headers := None;
             resp_errno := None;
             resp_logged_status := None |}, w')
    /\ metrics w' = metrics empty_world
                    ++ ["updates.client.bridge.fcm.failed.rereg"]
    /\ counter "updates.client.bridge.fcm.failed.rereg" w'
       = S (counter "updates.client.bridge.fcm.failed.rereg" empty_world)
    /\ gateway_calls w' = gateway_calls empty_world.
Proof.
  apply (rereg_reply _ _ _ _ _ _ _ (PyStr "old-token")).
  - right. exists []. vm_compute. reflexivity.
  - vm_compute. reflexivity.
  - vm_compute. reflexivity.
Defined.

(** C6 (defect of the code).  A reply with [canonical_ids] set and an empty
    [results] list does not get the 503 response: taking the first result
    raises [IndexError] before the flag is looked at, in reply processing
    alone and in a whole dispatch; no routing-data patch is returned and
    the rereg counter is not incremented. *)
Theorem rereg_reply_empty_results :
  let reply : pydict := {[ "canonical_ids" := PyInt 1; "results" := PyList [] ]} in
  let n := ex_notification (Some "payload") (Some 30) in
  _process_reply (ex_router None (answering reply)) reply n ex_router_data 60
    empty_world
  = (Raise IndexError, empty_world)
  /\ (let out := _route (ex_router None (answering reply)) n ex_router_data
                   empty_world in
      fst out = Raise IndexError
      /\ counter "updates.client.bridge.fcm.failed.rereg" (snd out) = 0%nat).
Proof. cbv zeta. repeat split; vm_compute; reflexivity. Qed.

(** The success branch on the replies that reach it: for a reply with
    neither [failure] nor [canonical_ids] truthy whose [results] are absent
    or a non-empty list, reply processing increments the succeeded counter
    once and returns status 201 with an empty body, logged status 200, and
    the headers TTL (the effective TTL that [_route] computed and handed
    over, see [effective_ttl_clamp]) and Location = endpoint url, then
    /m/, then the notification's version. *)
Lemma success_reply (self : FCMRouter) (reply : pydict) (n : Notification)
    (rd : pydict) (t : Z) (w : World) (r : pyvalue) :
  first_result reply r ->
  truthy (dict_get reply "canonical_ids") = false ->
  truthy (dict_get reply "failure") = false ->
  _process_reply self reply n rd t w
  = (Ok {| resp_status_code := 201;
           resp_response_body := EmptyString;
           resp_router_data := None;
           resp_headers :=
             Some {[ "TTL" := PyInt t;
                     "Location" := PyStr (endpoint_url (ap_settings self)
                                          +:+ "/m/" +:+ version n) ]};
           resp_errno := None;
           resp_logged_status := Some 200 |},
     record_metric "updates.client.bridge.fcm.succeeded" w)
  /\ counter "updates.client.bridge.fcm.succeeded"
       (record_metric "updates.client.bridge.fcm.succeeded" w)
     = S (counter "updates.client.bridge.fcm.succeeded" w).
Proof.
  intros Hres Hcanon Hfail. split.
  - enter_reply Hres. rewrite Hcanon, Hfail. reflexivity.
  - rewrite counter_record_metric. now rewrite decide_True.
Qed.

Example success_reply_example :
  _process_reply (ex_router None (answering ∅))
    {[ "failure" := PyInt 0; "canonical_ids" := PyInt 0;
       "results" := PyList [PyDict {[ "message_id" := PyStr "m-1" ]}] ]}
    (ex_notification None (Some 30)) ex_router_data 60 empty_world
  = (Ok {| resp_status_code := 201;
           resp_response_body := EmptyString;
           resp_router_data := None;
           resp_headers :=
             Some {[ "TTL" := PyInt 60;
                     "Location" := PyStr ("https://push.example.org"
                                          +:+ "/m/" +:+ "v1") ]};
           resp_errno := None;
           resp_logged_status := Some 200 |},
     record_metric "updates.client.bridge.fcm.succeeded" empty_world)
  /\ counter "updates.client.bridge.fcm.succeeded"
       (record_metric "updates.client.bridge.fcm.succeeded" empty_world)
     = S (counter "updates.client.bridge.fcm.succeeded" empty_world).
Proof.
  apply (success_reply (ex_router None (answering ∅)) _
           (ex_notification None (Some 30)) ex_router_data 60 empty_world
           (PyDict {[ "message_id" := PyStr "m-1" ]})).
  - right. exists []. vm_compute. reflexivity.
  - vm_compute. reflexivity.
  - vm_compute. reflexivity.
Defined.

(** C7 (defect of the code).  A reply with neither flag set and an empty
    [results] list does not get the 201 response: taking the first result
    raises [IndexError] before the flags are looked at, in reply
    processing alone and in a whole dispatch; the succeeded counter is not
    incremented. *)
Theorem success_reply_empty_results :
  let reply : pydict :=
    {[ "failure" := PyInt 0; "canonical_ids" := PyInt 0;
       "results" := PyList [] ]} in
  let n := ex_notification (Some "payload") (Some 30) in
  _process_reply (ex_router None (answering reply)) reply n ex_router_data 60
    empty_world
  = (Raise IndexError, empty_world)
  /\ (let out := _route (ex_router None (answering reply)) n ex_router_data
                   empty_world in
      fst out = Raise IndexError
      /\ counter "updates.client.bridge.fcm.succeeded" (snd out) = 0%nat).
Proof. cbv zeta. repeat split; vm_compute; reflexivity. Qed.

(** C1 (defect of the code).  A failure reply whose reason string is not a
    key of the reason table does not fall back to the Unreported entry:
    the table's [get] returns None without a default, and reading [crit]
    off None raises [AttributeError] right after the failure counter has
    been incremented. *)
Theorem unknown_reason_raises_attribute_error (self : FCMRouter)
    (reply : pydict) (n : Notification) (rd : pydict) (t : Z) (w : World)
    (r_d : pydict) (reason : string) :
  first_result reply (PyDict r_d) ->
  truthy (dict_get reply "canonical_ids") = false ->
  truthy (dict_get reply "failure") = true ->
  r_d !! "error" = Some (PyStr reason) ->
  reasonTable !! reason = None ->
  _process_reply self reply n rd t w
  = (Raise AttributeError, record_metric "updates.client.bridge.fcm.failed" w).
Proof.
  intros Hres Hcanon Hfail Herr Hnone.
  apply (failure_branch_unknown _ _ _ _ _ _ r_d Hres Hcanon Hfail reason);
    [|exact Hnone].
  unfold dict_get_default. now rewrite Herr.
Qed.

Lemma unknown_reason_raises_attribute_error_witness :
  _process_reply (ex_router None (answering ∅))
    (reply_of_error "QuotaExceeded")
    (ex_notification (Some "payload") None) ex_router_data 60 empty_world
  = (Raise AttributeError,
     record_metric "updates.client.bridge.fcm.failed" empty_world).
Proof.
  apply (unknown_reason_raises_attribute_error _ _ _ _ _ _
           {[ "error" := PyStr "QuotaExceeded" ]} "QuotaExceeded").
  - right. exists []. vm_compute. reflexivity.
  - vm_compute. reflexivity.
  - vm_compute. reflexivity.
  - vm_compute. reflexivity.
  - vm_compute. reflexivity.
Defined.

(** The part of C1 that the code does honour: a failure reply whose first
    result has no [error] field resolves to the Unreported entry, which is
    critical: (for a notification with data and routing data with a token)
    the critical log carries the message of that entry, and the caller
    gets the generic failure with that entry's status 500. *)
Lemma missing_error_uses_unreported (self : FCMRouter) (reply : pydict)
    (n : Notification) (rd : pydict) (t : Z) (w : World) (r_d : pydict)
    (body : string) (tok : pyvalue) :
  first_result reply (PyDict r_d) ->
  truthy (dict_get reply "canonical_ids") = false ->
  truthy (dict_get reply "failure") = true ->
  r_d !! "error" = None ->
  data n = Some body ->
  rd !! "token" = Some tok ->
  _process_reply self reply n rd t w
  = (Raise (RouterExc {| exc_message := "FCM failure to deliver";
                         exc_status_code := 500;
                         exc_response_body := "Please try request later.";
                         exc_log_exception := false;
                         exc_errno := None |}),
     record_log
       {| log_lvl := Critical;
          log_format := "Error has no reported reason.";
          log_fields :=
            [("nlen", PyInt (Z.of_nat (String.length body)));
             ("regid", tok);
             ("senderid", py_of_opt_str (senderID self));
             ("ttl", py_of_opt_int (ttl n))] |}
       (record_metric "updates.client.bridge.fcm.failed" w)).
Proof.
  intros Hres Hcanon Hfail Herr Hdata Htok.
  rewrite (failure_branch_resolved _ _ _ _ _ _ r_d Hres Hcanon Hfail
             "Unreported" _ ltac:(unfold dict_get_default; now rewrite Herr)
             reasonTable_Unreported).
  cbn [crit from_option id].
  unfold mbind, M_bind, len_bytes, getitem. rewrite Hdata, Htok.
  reflexivity.
Qed.

(** C9.  For a failure reply whose reason resolves to a critical entry of
    the table, the generic failure (status of the entry, body "Please try
    request later.", not logged as an exception) is produced only when the
    notification has data: the critical log call takes the length of the
    data first, so a notification without data ends in [TypeError]; with
    data (and a token in the routing data, which the same log call reads)
    the failure is produced. *)
Theorem critical_failure_needs_data (self : FCMRouter) (reply : pydict)
    (n : Notification) (rd : pydict) (t : Z) (w : World) (r_d : pydict)
    (reason : string) (entry : ReasonEntry) :
  first_result reply (PyDict r_d) ->
  truthy (dict_get reply "canonical_ids") = false ->
  truthy (dict_get reply "failure") = true ->
  dict_get_default r_d "error" (PyStr "Unreported") = PyStr reason ->
  reasonTable !! reason = Some entry ->
  default false (crit entry) = true ->
  let failure :=
    {| exc_message := "FCM failure to deliver";
       exc_status_code := err entry;
       exc_response_body := "Please try request later.";
       exc_log_exception := false;
       exc_errno := None |} in
  let w_failed := record_metric "updates.client.bridge.fcm.failed" w in
  (data n = None ->
   _process_reply self reply n rd t w = (Raise TypeError, w_failed))
  /\ (forall body tok,
        data n = Some body -> rd !! "token" = Some tok ->
        _process_reply self reply n rd t w
        = (Raise (RouterExc failure),
           record_log
             {| log_lvl := Critical;
                log_format := msg entry;
                log_fields :=
                  [("nlen", PyInt (Z.of_nat (String.length body)));
                   ("regid", tok);
                   ("senderid", py_of_opt_str (senderID self));
                   ("ttl", py_of_opt_int (ttl n))] |} w_failed))
  /\ (forall e w',
        _process_reply self reply n rd t w = (Raise (RouterExc e), w') ->
        data n <> None /\ e = failure).
Proof.
  intros Hres Hcanon Hfail Herr Hentry Hcrit failure w_failed.
  rewrite (failure_branch_resolved _ _ _ _ _ _ r_d Hres Hcanon Hfail
             reason entry Herr Hentry).
  rewrite Hcrit. subst failure w_failed.
  unfold mbind, M_bind, len_bytes, getitem, log, raise, mret, M_ret.
  split; [|split].
  - intros ->. reflexivity.
  - intros body tok -> ->. reflexivity.
  - intros e w' Hrun.
    destruct (data n) as [body|]; [|discriminate].
    destruct (rd !! "token") as [tok|]; [|discriminate].
    split; [discriminate|]. now inversion Hrun.
Qed.

Lemma critical_failure_needs_data_witness :
  _process_reply (ex_router None (answering ∅))
    (reply_of_error "InvalidPackageName")
    (ex_notification None None) ex_router_data 60 empty_world
  = (Raise TypeError,
     record_metric "updates.client.bridge.fcm.failed" empty_world).
Proof.
  refine (proj1 (critical_failure_needs_data
                   (ex_router None (answering ∅))
                   (reply_of_error "InvalidPackageName")
                   (ex_notification None None) ex_router_data 60 empty_world
                   {[ "error" := PyStr "InvalidPackageName" ]}
                   "InvalidPackageName"
                   {| msg := "Invalid Package Name specified";
                      err := 500; errno := 2; crit := Some true |}
                   _ _ _ _ _ _) _).
  - right. exists []. vm_compute. reflexivity.
  - vm_compute. reflexivity.
  - vm_compute. reflexivity.
  - vm_compute. reflexivity.
  - vm_compute. reflexivity.
  - reflexivity.
  - reflexivity.
Defined.

(** C10.  For a failure reply whose reason resolves to a non-critical
    entry, the response (status, errno and message of the entry, empty
    routing-data patch) is produced only when the routing data has a
    [creds] key: the informational log reads it first, so routing data
    without it ends in [KeyError]; with a [creds] record the response is
    produced. *)
Theorem soft_failure_needs_creds (self : FCMRouter) (reply : pydict)
    (n : Notification) (rd : pydict) (t : Z) (w : World) (r_d : pydict)
    (reason : string) (entry : ReasonEntry) :
  first_result reply (PyDict r_d) ->
  truthy (dict_get reply "canonical_ids") = false ->
  truthy (dict_get reply "failure") = true ->
  dict_get_default r_d "error" (PyStr "Unreported") = PyStr reason ->
  reasonTable !! reason = Some entry ->
  default false (crit entry) = false ->
  let response :=
    {| resp_status_code := err entry;
       resp_response_body := msg entry;
       resp_router_data := Some ∅;
       resp_headers := None;
       resp_errno := Some (errno entry);
       resp_logged_status := None |} in
  let w_failed := record_metric "updates.client.bridge.fcm.failed" w in
  (rd !! "creds" = None ->
   _process_reply self reply n rd t w
   = (Raise (KeyError (PyStr "creds")), w_failed))
  /\ (forall c,
        rd !! "creds" = Some (PyDict c) ->
        _process_reply self reply n rd t w
        = (Ok response,
           record_log
             {| log_lvl := Info;
                log_format := "{msg} : {info}";
                log_fields :=
                  [("msg", PyStr (msg entry));
                   ("info", PyDict {[ "senderid" := dict_get c "registration_id";
                                      "reason" := PyStr reason ]})] |}
             w_failed))
  /\ (forall resp w',
        _process_reply self reply n rd t w = (Ok resp, w') ->
        is_Some (rd !! "creds") /\ resp = response).
Proof.
  intros Hres Hcanon Hfail Herr Hentry Hcrit response w_failed.
  rewrite (failure_branch_resolved _ _ _ _ _ _ r_d Hres Hcanon Hfail
             reason entry Herr Hentry).
  rewrite Hcrit. subst response w_failed.
  unfold mbind, M_bind, getitem, py_get, log, raise, mret, M_ret.
  split; [|split].
  - intros ->. reflexivity.
  - intros c ->. reflexivity.
  - intros resp w' Hrun.
    destruct (rd !! "creds") as [[| | | | |c]|]; try discriminate.
    split; [eauto|]. now inversion Hrun.
Qed.

Lemma soft_failure_needs_creds_witness :
  _process_reply (ex_router None (answering ∅))
    (reply_of_error "NotRegistered")
    (ex_notification None None) ex_router_data_no_creds 60 empty_world
  = (Raise (KeyError (PyStr "creds")),
     record_metric "updates.client.bridge.fcm.failed" empty_world).
Proof.
  refine (proj1 (soft_failure_needs_creds
                   (ex_router None (answering ∅))
                   (reply_of_error "NotRegistered")
                   (ex_notification None None) ex_router_data_no_creds 60
                   empty_world
                   {[ "error" := PyStr "NotRegistered" ]}
                   "NotRegistered"
                   {| msg := "device has unregistered with FCM: {regid}";
                      err := 410; errno := 103; crit := None |}
                   _ _ _ _ _ _) _).
  - right. exists []. vm_compute. reflexivity.
  - vm_compute. reflexivity.
  - vm_compute. reflexivity.
  - vm_compute. reflexivity.
  - vm_compute. reflexivity.
  - reflexivity.
  - vm_compute. reflexivity.
Defined.

(** Reply processing signals a router failure in one place only, after the
    critical log call; none of the other steps does. *)
Section NoRouterFailure.
Context {A B : Type}.

Lemma nrf_ret (a : A) : no_router_failure (mret a).
Proof. intros w e w' H. discriminate. Qed.

Lemma nrf_bind (m : M A) (f : A -> M B) :
  no_router_failure m -> (forall a, no_router_failure (f a)) ->
  no_router_failure (m ≫= f).
Proof.
  intros Hm Hf w e w' H. unfold mbind, M_bind in H.
  destruct (m w) as [[a|e0] w1] eqn:Hrun.
  - exact (Hf a w1 e w' H).
  - inversion H; subst. exact (Hm w e w' Hrun).
Qed.

Lemma nrf_if (c : bool) (m1 m2 : M A) :
  no_router_failure m1 -> no_router_failure m2 ->
  no_router_failure (if c then m1 else m2).
Proof. now destruct c. Qed.

Lemma nrf_len_none (f : Z -> M A) : no_router_failure (len_bytes None ≫= f).
Proof. intros w e w' H. discriminate. Qed.
End NoRouterFailure.

Lemma nrf_log lvl fmt fields : no_router_failure (log lvl fmt fields).
Proof. intros w e w' H. discriminate. Qed.

Lemma nrf_increment name : no_router_failure (increment name).
Proof. intros w e w' H. discriminate. Qed.

Lemma nrf_getitem {V : Type} (d : gmap string V) k :
  no_router_failure (getitem d k).
Proof. intros w e w'. unfold getitem. now destruct (d !! k). Qed.

Lemma nrf_getitem0 v : no_router_failure (getitem0 v).
Proof. intros w e w'. destruct v as [| | |[|]|[|]|]; discriminate. Qed.

Lemma nrf_py_get v k dflt : no_router_failure (py_get v k dflt).
Proof. intros w e w'. now destruct v. Qed.

Lemma nrf_entry_of o : no_router_failure (entry_of o).
Proof. intros w e w'. now destruct o. Qed.

Lemma nrf_reasonTable_get r : no_router_failure (reasonTable_get r).
Proof. intros w e w'. now destruct r. Qed.

Create HintDb nrf.
#[local] Hint Resolve nrf_ret nrf_log nrf_increment nrf_getitem nrf_getitem0
  nrf_py_get nrf_entry_of nrf_reasonTable_get : nrf.
#[local] Hint Resolve nrf_len_none | 0 : nrf.
#[local] Hint Extern 2 (no_router_failure (_ ≫= _)) =>
  apply nrf_bind; [|intros ?] : nrf.
#[local] Hint Extern 2 (no_router_failure (if _ then _ else _)) =>
  apply nrf_if : nrf.

(** Over all replies and routing data: reply processing signals no router
    failure at all for a notification without data. *)
Lemma router_failure_requires_data (self : FCMRouter) (reply : pydict)
    (n : Notification) (rd : pydict) (t : Z) :
  data n = None -> no_router_failure (_process_reply self reply n rd t).
Proof.
  intros Hdata. unfold _process_reply. rewrite Hdata.
  auto 20 with nrf.
Qed.

(** The two failure replies worked out in full: a soft failure and a
    critical one. *)
Example not_registered_reply :
  fst (_process_reply (ex_router None (answering ∅))
         (reply_of_error "NotRegistered")
         (ex_notification (Some "payload") None) ex_router_data 60
         empty_world)
  = Ok {| resp_status_code := 410;
          resp_response_body := "device has unregistered with FCM: {regid}";
          resp_router_data := Some ∅;
          resp_headers := None;
          resp_errno := Some 103;
          resp_logged_status := None |}.
Proof. vm_compute. reflexivity. Qed.

Example invalid_package_name_reply :
  let out := _process_reply (ex_router None (answering ∅))
               (reply_of_error "InvalidPackageName")
               (ex_notification (Some "payload") None) ex_router_data 60
               empty_world in
  fst out
  = Raise (RouterExc {| exc_message := "FCM failure to deliver";
                        exc_status_code := 500;
                        exc_response_body := "Please try request later.";
                        exc_log_exception := false;
                        exc_errno := None |})
  /\ map log_lvl (logs (snd out)) = [Critical].
Proof. cbv zeta. split; vm_compute; reflexivity. Qed.

(** ** Registration *)

(** C4, as the code has it.  [register] tests whether the routing data
    has a [token] key, not whether the token is empty: without the key it
    fails with status 401 (and touches neither the metrics nor the
    gateway); with the key, whatever its value, and a
    matching sender identity it succeeds, and the routing data afterwards
    is the old one with [creds] set to the configured sender identity and
    auth key, every other key unchanged.  Any success is of that kind. *)
Theorem register_checks_token_key (self : FCMRouter) (uaid : string)
    (rd : pydict) (app_id : string) (uri : option string) (w : World) :
  (rd !! "token" = None ->
   exists e w',
     register self uaid rd app_id uri w = (Raise (RouterExc e), w')
     /\ exc_status_code e = 401
     /\ metrics w' = metrics w /\ gateway_calls w' = gateway_calls w)
  /\ (is_Some (rd !! "token") -> senderID self = Some app_id ->
      register self uaid rd app_id uri w
      = (Ok (<["creds" := creds_of self]> rd), w))
  /\ (forall rd' w',
        register self uaid rd app_id uri w = (Ok rd', w') ->
        is_Some (rd !! "token") /\ senderID self = Some app_id /\ w' = w
        /\ rd' = <["creds" := creds_of self]> rd
        /\ forall k, k <> "creds" -> rd' !! k = rd !! k).
Proof.
  unfold register, when, _error, creds_of.
  split; [|split].
  - intros Hnone. rewrite Hnone.
    rewrite (bool_decide_eq_false_2 (is_Some (@None pyvalue)))
      by apply is_Some_None.
    eexists _, _. split; [reflexivity|]. repeat split.
  - intros Htok Hsender.
    rewrite (bool_decide_eq_true_2 _ Htok).
    rewrite bool_decide_eq_true_2 by congruence.
    reflexivity.
  - intros rd' w' Hrun.
    destruct (bool_decide (is_Some (rd !! "token"))) eqn:Htok;
      [|cbv in Hrun; discriminate].
    destruct (bool_decide (Some app_id = senderID self)) eqn:Hsender;
      [|cbv in Hrun; discriminate].
    apply bool_decide_eq_true_1 in Htok, Hsender.
    unfold mbind, M_bind, mret, M_ret in Hrun. cbn [negb] in Hrun.
    inversion Hrun; subst.
    repeat split; try done.
    intros k Hk. now rewrite lookup_insert_ne.
Qed.

Lemma register_checks_token_key_witness :
  register (ex_router None (answering ∅)) "uaid-1"
    {[ "token" := PyStr "device-token" ]} "sender-1" None empty_world
  = (Ok (<["creds" := creds_of (ex_router None (answering ∅))]>
           {[ "token" := PyStr "device-token" ]}),
     empty_world).
Proof.
  refine (proj1 (proj2 (register_checks_token_key
                          (ex_router None (answering ∅)) "uaid-1"
                          {[ "token" := PyStr "device-token" ]}
                          "sender-1" None empty_world)) _ _).
  - exists (PyStr "device-token"). vm_compute. reflexivity.
  - reflexivity.
Defined.

(** C4 as stated fails: routing data whose token is the empty string is
    registered without any failure, and [creds] is written. *)
Lemma register_empty_token_counterexample :
  register (ex_router None (answering ∅)) "uaid-1"
    {[ "token" := PyStr EmptyString ]} "sender-1" None empty_world
  = (Ok {[ "token" := PyStr EmptyString;
           "creds" := PyDict {[ "senderID" := PyStr "sender-1";
                                "auth" := PyStr "api-key" ]} ]},
     empty_world).
Proof. vm_compute. reflexivity. Qed.

(** A sender identity other than the configured one is refused with
    status 410, errno 105. *)
Lemma register_sender_mismatch (self : FCMRouter) (uaid : string)
    (rd : pydict) (app_id : string) (uri : option string) (w : World) :
  is_Some (rd !! "token") -> senderID self <> Some app_id ->
  exists e w',
    register self uaid rd app_id uri w = (Raise (RouterExc e), w')
    /\ exc_status_code e = 410 /\ exc_errno e = Some 105.
Proof.
  intros Htok Hsender. unfold register, when, _error.
  rewrite (bool_decide_eq_true_2 _ Htok).
  rewrite bool_decide_eq_false_2 by congruence.
  eexists _, _. split; [reflexivity|]. split; reflexivity.
Qed.

(** ** Dispatch *)

Lemma run_bind_inv {A B : Type} (m : M A) (f : A -> M B) (w w2 : World)
    (r : Result B) :
  (m ≫= f) w = (r, w2) ->
  (exists a w1, m w = (Ok a, w1) /\ f a w1 = (r, w2))
  \/ (exists e, m w = (Raise e, w2) /\ r = Raise e).
Proof.
  unfold mbind, M_bind. destruct (m w) as [[a|e] w1]; intros H.
  - left. eauto.
  - right. inversion H; subst. eauto.
Qed.

Lemma ngc_when c m : no_gateway_call m -> no_gateway_call (when c m).
Proof. intros Hm. unfold when. destruct c; [exact Hm | apply ngc_ret]. Qed.

Lemma ngc_error e status eno log_exc extra :
  no_gateway_call (_error e status eno log_exc extra).
Proof. unfold _error. auto with ngc. Qed.

#[local] Hint Resolve ngc_when ngc_error : ngc.
#[local] Hint Extern 3 (no_gateway_call (match ?x with Some _ => _ | None => _ end)) =>
  destruct x : ngc.

(** The configured floor defaults to 60 seconds. *)
Lemma init_min_ttl (settings : Settings) (conf : RouterConf)
    (FCMNotification : option string ->
                       string + (gateway_request -> gateway_outcome))
    (w w' : World) (self : FCMRouter) :
  __init__ settings conf FCMNotification w = (Ok self, w') ->
  min_ttl self = default 60 (conf_ttl conf).
Proof.
  unfold __init__. destruct (FCMNotification _); intros H; inversion H.
  reflexivity.
Qed.

Lemma init_ex_router (max_data_ : option Z)
    (client : gateway_request -> gateway_outcome) :
  fst (__init__ ex_settings (ex_conf max_data_) (fun _ => inr client)
         empty_world)
  = Ok (ex_router max_data_ client).
Proof. reflexivity. Qed.

(** A notification without payload, sent for routing data with a token,
    always reaches the gateway; a reply is then processed with the
    effective TTL. *)
Lemma route_without_payload (self : FCMRouter) (n : Notification)
    (rd : pydict) (w : World) (reply : pydict) :
  let eff := Z.min 2419200 (Z.max (min_ttl self) (default 0 (ttl n))) in
  let req :=
    {| collapse_key := collapseKey self;
       data_message := {[ "chid" := PyStr (channel_id_hex n) ]};
       dry_run := dryRun self || bool_decide (is_Some (rd !! "dryrun"));
       registration_id := dict_get rd "token";
       time_to_live := eff |} in
  truthy (dict_get rd "token") = true ->
  bytes_truthy (data n) = false ->
  fcm self req = GwReply reply ->
  _route self n rd w
  = _process_reply self reply n rd eff
      (record_metric "updates.client.bridge.fcm.attempted" (record_call req w)).
Proof.
  intros eff req Htok Hdata Hreply. subst eff req.
  unfold _route. rewrite Htok, Hdata, or_zero_default.
  unfold when, mbind, M_bind, mret, M_ret, notify_single_device, MAX_TTL.
  cbn [negb]. cbv beta iota.
  rewrite Hreply. reflexivity.
Qed.

(** The two instances of the clamp given with it: floor 60 and no TTL
    sends 60; floor 60 and TTL 99999999 sends 2419200. *)
Example ttl_absent_sends_floor :
  map time_to_live
    (gateway_calls (snd (_route (ex_router None (answering ∅))
                           (ex_notification None None) ex_router_data
                           empty_world)))
  = [60].
Proof. vm_compute. reflexivity. Qed.

Example ttl_huge_sends_max :
  map time_to_live
    (gateway_calls (snd (_route (ex_router None (answering ∅))
                           (ex_notification None (Some 99999999))
                           ex_router_data empty_world)))
  = [2419200].
Proof. vm_compute. reflexivity. Qed.

(** A requested TTL of 30 under the floor 60, answered by a reply with
    neither flag set: status 201 with TTL 60 and the location. *)
Example ttl_below_floor_success :
  fst (_route (ex_router None
                 (answering {[ "failure" := PyInt 0;
                               "canonical_ids" := PyInt 0;
                               "results" := PyList [PyDict ∅] ]}))
         (ex_notification None (Some 30)) ex_router_data empty_world)
  = Ok {| resp_status_code := 201;
          resp_response_body := EmptyString;
          resp_router_data := None;
          resp_headers :=
            Some {[ "TTL" := PyInt 60;
                    "Location" := PyStr "https://push.example.org/m/v1" ]};
          resp_errno := None;
          resp_logged_status := Some 200 |}.
Proof. vm_compute. reflexivity. Qed.

(** C8, as the code has it.  The size check comes after the token check:
    for routing data with a (truthy) token and a notification whose
    non-empty data is longer than max_data (default 4096), dispatch fails
    with status 413, errno 104, not logged as an exception; the message
    ends with the overflow len(data) - max_data in decimal; the gateway is
    not called and no counter is incremented. *)
Theorem oversized_payload_rejected (self : FCMRouter) (n : Notification)
    (rd : pydict) (w : World) (body : string) :
  truthy (dict_get rd "token") = true ->
  data n = Some body ->
  body <> EmptyString ->
  default 4096 (conf_max_data (config self)) < Z.of_nat (String.length body) ->
  let overflow :=
    Z.of_nat (String.length body) - default 4096 (conf_max_data (config self)) in
  let text :=
    "This message is intended for a constrained device and is limited to 3070 bytes. Converted buffer too long by "
    +:+ pretty overflow +:+ " bytes" in
  exists w',
    _route self n rd w
    = (Raise (RouterExc {| exc_message := text;
                           exc_status_code := 413;
                           exc_response_body := text;
                           exc_log_exception := false;
                           exc_errno := Some 104 |}), w')
    /\ gateway_calls w' = gateway_calls w
    /\ metrics w' = metrics w.
Proof.
  intros Htok Hdata Hne Hlen overflow text. subst overflow text.
  unfold _route. rewrite Htok, Hdata.
  assert (Htruthy : bytes_truthy (Some body) = true).
  { simpl. destruct (String.eqb_spec body EmptyString); [contradiction | reflexivity]. }
  rewrite Htruthy. cbn [from_option id].
  apply Z.ltb_lt in Hlen. rewrite Hlen.
  eexists. split; [reflexivity|]. split; reflexivity.
Qed.

Lemma oversized_payload_rejected_witness :
  let text :=
    "This message is intended for a constrained device and is limited to 3070 bytes. Converted buffer too long by "
    +:+ pretty (Z.of_nat (String.length "payload!") - 4) +:+ " bytes" in
  exists w',
    _route (ex_router (Some 4) (answering ∅))
      (ex_notification (Some "payload!") None) ex_router_data empty_world
    = (Raise (RouterExc {| exc_message := text;
                           exc_status_code := 413;
                           exc_response_body := text;
                           exc_log_exception := false;
                           exc_errno := Some 104 |}), w')
    /\ gateway_calls w' = gateway_calls empty_world
    /\ metrics w' = metrics empty_world.
Proof.
  apply (oversized_payload_rejected (ex_router (Some 4) (answering ∅))
           (ex_notification (Some "payload!") None) ex_router_data
           empty_world "payload!").
  - vm_compute. reflexivity.
  - reflexivity.
  - discriminate.
  - vm_compute. reflexivity.
Defined.

Example oversized_payload_message :
  exc_message
    <$> match fst (_route (ex_router (Some 4) (answering ∅))
                     (ex_notification (Some "payload!") None) ex_router_data
                     empty_world) with
        | Raise (RouterExc e) => Some e
        | _ => None
        end
  = Some "This message is intended for a constrained device and is limited to 3070 bytes. Converted buffer too long by 4 bytes".
Proof. vm_compute. reflexivity. Qed.

(** C8 as stated fails: with no token in the routing data the oversized
    payload is never looked at, and dispatch fails with status 410,
    errno 106 instead. *)
Lemma oversized_payload_counterexample :
  fst (_route (ex_router (Some 4) (answering ∅))
         (ex_notification (Some "payload!") None) ∅ empty_world)
  = Raise (RouterExc {| exc_message :=
                          "No registration token found. Rejecting message.";
                        exc_status_code := 410;
                        exc_response_body :=
                          "No registration token found. Rejecting message.";
                        exc_log_exception := false;
                        exc_errno := Some 106 |}).
Proof. vm_compute. reflexivity. Qed.


(** C2 (defect of the code).  A dispatch can end in an exception that is
    neither of the two promised outcomes: a token, a payload and a failure
    reply with a reason the table does not list end in [AttributeError]
    (the lookup without default of C1); so do an empty [results] list
    ([IndexError]), a critical reason for a notification without data
    ([TypeError]) and a soft failure for routing data without [creds]
    ([KeyError]). *)
Theorem dispatch_escapes_router_outcome :
  let out reply payload rd :=
    fst (_route (ex_router None (answering reply))
           (ex_notification payload None) rd empty_world) in
  out (reply_of_error "QuotaExceeded") (Some "payload") ex_router_data
  = Raise AttributeError
  /\ ~ router_outcome
       (out (reply_of_error "QuotaExceeded") (Some "payload") ex_router_data)
  /\ out {[ "results" := PyList [] ]} (Some "payload") ex_router_data
     = Raise IndexError
  /\ out (reply_of_error "InvalidPackageName") None ex_router_data
     = Raise TypeError
  /\ out (reply_of_error "NotRegistered") (Some "payload")
       ex_router_data_no_creds
     = Raise (KeyError (PyStr "creds")).
Proof.
  cbv zeta. repeat split; try (vm_compute; reflexivity).
  vm_compute. intros [].
Qed.

(** * Further properties of the router *)

(** ** Computations that only log *)

Section LogOnly.
Context {A B : Type}.

Lemma lo_ret (a : A) : log_only (mret a).
Proof. intros w. split; reflexivity. Qed.

Lemma lo_raise (e : exn) : log_only (@raise A e).
Proof. intros w. split; reflexivity. Qed.

Lemma lo_bind (m : M A) (f : A -> M B) :
  log_only m -> (forall a, log_only (f a)) -> log_only (m ≫= f).
Proof.
  intros Hm Hf w. unfold mbind, M_bind.
  specialize (Hm w). destruct (m w) as [[a|e] w1]; cbn [snd] in *.
  - destruct (Hf a w1) as [-> ->]. exact Hm.
  - exact Hm.
Qed.

Lemma lo_if (c : bool) (m1 m2 : M A) :
  log_only m1 -> log_only m2 -> log_only (if c then m1 else m2).
Proof. now destruct c. Qed.
End LogOnly.

Lemma lo_log lvl fmt fields : log_only (log lvl fmt fields).
Proof. intros w. split; reflexivity. Qed.

Lemma lo_getitem {V : Type} (d : gmap string V) k : log_only (getitem d k).
Proof. intros w. unfold getitem. destruct (d !! k); split; reflexivity. Qed.

Lemma lo_getitem0 v : log_only (getitem0 v).
Proof. intros w. destruct v as [| | |[|]|[|]|]; split; reflexivity. Qed.

Lemma lo_py_get v k dflt : log_only (py_get v k dflt).
Proof. intros w. destruct v; split; reflexivity. Qed.

Lemma lo_len_bytes x : log_only (len_bytes x).
Proof. intros w. destruct x; split; reflexivity. Qed.

Lemma lo_entry_of e : log_only (entry_of e).
Proof. intros w. destruct e; split; reflexivity. Qed.

Lemma lo_reasonTable_get r : log_only (reasonTable_get r).
Proof. intros w. destruct r; split; reflexivity. Qed.

Create HintDb lo.
#[local] Hint Resolve lo_ret lo_raise lo_log lo_getitem lo_getitem0 lo_py_get
  lo_len_bytes lo_entry_of lo_reasonTable_get : lo.
#[local] Hint Extern 2 (log_only (_ ≫= _)) => apply lo_bind; [|intros ?] : lo.
#[local] Hint Extern 2 (log_only (if _ then _ else _)) => apply lo_if : lo.
#[local] Hint Extern 3 (log_only (match ?x with Some _ => _ | None => _ end)) =>
  destruct x : lo.

Lemma lo_when c m : log_only m -> log_only (when c m).
Proof. intros Hm. unfold when. destruct c; [exact Hm | apply lo_ret]. Qed.

Lemma lo_error e status eno log_exc extra :
  log_only (_error e status eno log_exc extra).
Proof. unfold _error. auto with lo. Qed.

#[local] Hint Resolve lo_when lo_error : lo.

(** A step that runs a computation known to only log. *)
Ltac log_only_step H :=
  match type of H with
  | ?m ?w0 = (_, ?w1) =>
      let Hm := fresh in
      assert (Hm : log_only m) by auto 20 with lo;
      specialize (Hm w0); rewrite H in Hm; exact Hm
  end.

(** ** The shape of every dispatch *)

(** A dispatch either ends before the gateway is called, having only
    logged, or sends exactly one request and continues according to the
    outcome of the client. *)
Lemma route_inv (self : FCMRouter) (n : Notification) (rd : pydict)
    (w : World) (res : Result RouterResponse) (w' : World) :
  _route self n rd w = (res, w') ->
  (gateway_calls w' = gateway_calls w /\ metrics w' = metrics w
   /\ exists e, res = Raise e)
  \/ exists req,
       gateway_calls w' = gateway_calls w ++ [req]
       /\ dispatched self n rd w req res w'.
Proof.
  intros Hrun.
  unfold _route in Hrun. rewrite or_zero_default in Hrun.
  unfold MAX_TTL in Hrun.
  destruct (truthy (dict_get rd "token")) eqn:Htok; cbn [negb] in Hrun.
  2:{ left. unfold when, _error, mbind, M_bind, log, raise, mret, M_ret in Hrun.
      inversion Hrun; subst. repeat split; eauto. }
  apply run_bind_inv in Hrun as [([] & w0 & Hgate & Hrun) | (e & Hgate & ->)];
    [|discriminate].
  inversion Hgate; subst w0.
  apply run_bind_inv in Hrun as [(d & w1 & Hpay & Hrun) | (e & Hpay & ->)].
  2:{ assert (Hq : gateway_calls w' = gateway_calls w
                   /\ metrics w' = metrics w) by log_only_step Hpay.
      destruct Hq. left. eauto. }
  assert (Hw1 : gateway_calls w1 = gateway_calls w /\ metrics w1 = metrics w)
    by log_only_step Hpay.
  destruct Hw1 as [Hcalls Hmetrics].
  right.
  match type of Hrun with
  | context [notify_single_device self ?req] => exists req
  end.
  unfold mbind, M_bind, notify_single_device in Hrun. cbv beta iota in Hrun.
  split.
  - destruct (fcm self _) as [e|e|e|reply] in Hrun.
    1-3: inversion Hrun; subst w';
         cbn [gateway_calls record_call record_log record_metric];
         now rewrite Hcalls.
    change w' with (snd (res, w')). rewrite <- Hrun. cbn [increment].
    rewrite ngc_process_reply. cbn [gateway_calls record_call record_metric].
    now rewrite Hcalls.
  - exists w1. repeat (split; [reflexivity || assumption|]).
    cbn [time_to_live].
    destruct (fcm self _) as [e|e|e|reply]; symmetry; exact Hrun.
Qed.

(** What is known of a dispatch from the request it has sent. *)
Lemma route_sent (self : FCMRouter) (n : Notification) (rd : pydict)
    (w : World) (req : gateway_request) :
  gateway_calls (snd (_route self n rd w)) = gateway_calls w ++ [req] ->
  dispatched self n rd w req (fst (_route self n rd w))
    (snd (_route self n rd w)).
Proof.
  destruct (_route self n rd w) as [res w'] eqn:Hrun. cbn [fst snd].
  intros Hsent.
  destruct (route_inv _ _ _ _ _ _ Hrun) as [(Hsame & _) | (req0 & Hcalls & Hd)].
  - rewrite Hsame in Hsent. rewrite <- (app_nil_r (gateway_calls w)) in Hsent at 1.
    apply app_inv_head in Hsent. discriminate.
  - rewrite Hcalls in Hsent. apply app_inj_tail in Hsent as [_ ->]. exact Hd.
Qed.

(** What is known of a dispatch that has sent nothing. *)
Lemma route_unsent (self : FCMRouter) (n : Notification) (rd : pydict)
    (w : World) :
  gateway_calls (snd (_route self n rd w)) = gateway_calls w ->
  metrics (snd (_route self n rd w)) = metrics w
  /\ exists e, fst (_route self n rd w) = Raise e.
Proof.
  destruct (_route self n rd w) as [res w'] eqn:Hrun. cbn [fst snd].
  intros Hsame.
  destruct (route_inv _ _ _ _ _ _ Hrun) as [(_ & Hm & He) | (req0 & Hcalls & _)].
  - eauto.
  - rewrite Hcalls in Hsame. rewrite <- (app_nil_r (gateway_calls w)) in Hsame at 2.
    apply app_inv_head in Hsame. discriminate.
Qed.

(** ** Reply processing: counters *)

Lemma quiet_raise {A B : Type} (m : M A) (w w' : World) (e : exn) :
  log_only m -> no_router_failure m -> m w = (Raise e, w') ->
  metrics w' = metrics w /\ ~ router_outcome (@Raise B e).
Proof.
  intros Hlo Hnrf Hrun. split.
  - specialize (Hlo w). rewrite Hrun in Hlo. apply Hlo.
  - destruct e as [r|k| | | |m0]; cbn;
      [intros _; exact (Hnrf w _ w' Hrun) | intros [] ..].
Qed.

Lemma quiet_ok {A : Type} (m : M A) (w w' : World) (a : A) :
  log_only m -> m w = (Ok a, w') -> metrics w' = metrics w.
Proof. intros Hlo Hrun. specialize (Hlo w). rewrite Hrun in Hlo. apply Hlo. Qed.

Ltac quiet_raise_with H :=
  match type of H with
  | ?m ?w0 = (Raise ?e, ?w1) =>
      apply (quiet_raise m w0 w1 e);
      [auto 20 with lo | auto 20 with nrf | exact H]
  end.

Ltac quiet_ok_in H :=
  match type of H with
  | ?m ?w0 = (Ok ?a, ?w1) =>
      apply (quiet_ok m w0 w1 a) in H; [|auto 20 with lo]
  end.

Lemma process_reply_counter_inv (self : FCMRouter) (reply : pydict)
    (n : Notification) (rd : pydict) (t : Z) (w : World)
    (res : Result RouterResponse) (w' : World) :
  _process_reply self reply n rd t w = (res, w') ->
  exists l,
    metrics w' = metrics w ++ l
    /\ (l = [] \/ exists c, l = [c] /\ In c reply_counters)
    /\ (router_outcome res -> l <> []).
Proof.
  intros Hrun. unfold _process_reply in Hrun.
  assert (Hquiet : forall (e : exn) (w0 : World),
             metrics w' = metrics w0 /\ ~ router_outcome (@Raise RouterResponse e) ->
             metrics w0 = metrics w ->
             exists l,
               metrics w' = metrics w ++ l
               /\ (l = [] \/ exists c, l = [c] /\ In c reply_counters)
               /\ (router_outcome (@Raise RouterResponse e) -> l <> [])).
  { intros e w0 [Hm He] Hw0. exists []. rewrite app_nil_r.
    split; [congruence|]. split; [now left|]. intros H. now destruct He. }
  assert (Hone : forall (c : string) (r : Result RouterResponse),
             In c reply_counters -> metrics w' = metrics w ++ [c] ->
             exists l,
               metrics w' = metrics w ++ l
               /\ (l = [] \/ exists c, l = [c] /\ In c reply_counters)
               /\ (router_outcome r -> l <> [])).
  { intros c r Hin Hm. exists [c]. split; [exact Hm|].
    split; [right; eauto|]. intros _. discriminate. }
  apply run_bind_inv in Hrun as [(x & w0 & Hget & Hrun) | (e & Hget & ->)].
  2:{ apply (Hquiet e w); [|reflexivity].
      quiet_raise_with Hget. }
  quiet_ok_in Hget.
  destruct (truthy (dict_get reply "canonical_ids")).
  - apply run_bind_inv in Hrun as [(old & w1 & Hold & Hrun) | (e & Hold & ->)].
    2:{ apply (Hquiet e w0); [|exact Hget].
        quiet_raise_with Hold. }
    quiet_ok_in Hold.
    apply run_bind_inv in Hrun as [(new & w2 & Hnew & Hrun) | (e & Hnew & ->)].
    2:{ apply (Hquiet e w1); [|congruence].
        quiet_raise_with Hnew. }
    quiet_ok_in Hnew.
    unfold mbind, M_bind, log, increment, mret, M_ret in Hrun.
    inversion Hrun; subst.
    apply (Hone "updates.client.bridge.fcm.failed.rereg"); [cbn; tauto|].
    cbn [metrics record_metric record_log]. congruence.
  - destruct (truthy (dict_get reply "failure")).
    + unfold mbind at 1, M_bind at 1, increment in Hrun. cbv beta iota in Hrun.
      apply (Hone "updates.client.bridge.fcm.failed"); [cbn; tauto|].
      match type of Hrun with
      | ?k ?w1 = _ =>
          assert (Hk : log_only k) by auto 20 with lo;
          specialize (Hk w1); rewrite Hrun in Hk; destruct Hk as [_ Hk]
      end.
      cbn [snd metrics record_metric] in Hk. congruence.
    + unfold mbind, M_bind, increment, mret, M_ret in Hrun.
      inversion Hrun; subst.
      apply (Hone "updates.client.bridge.fcm.succeeded"); [cbn; tauto|].
      cbn [metrics record_metric]. congruence.
Qed.

(** Reply processing never calls the gateway and increments at most one
    counter, one of rereg, failed and succeeded; when it ends in a response
    or a router failure it has incremented exactly one. *)
Theorem process_reply_one_counter (self : FCMRouter) (reply : pydict)
    (n : Notification) (rd : pydict) (t : Z) (w : World) :
  let out := _process_reply self reply n rd t w in
  gateway_calls (snd out) = gateway_calls w
  /\ exists l,
       metrics (snd out) = metrics w ++ l
       /\ (l = [] \/ exists c, l = [c] /\ In c reply_counters)
       /\ (router_outcome (fst out) -> l <> []).
Proof.
  intros out. split; [apply ngc_process_reply|]. subst out.
  destruct (_process_reply self reply n rd t w) as [res w'] eqn:Hrun.
  exact (process_reply_counter_inv _ _ _ _ _ _ _ _ Hrun).
Qed.

(** ** Dispatch: failures of the gateway client *)

(** A connection error of the gateway client ends the dispatch in the
    router failure 502, not logged as an exception, and the only metric
    call is one increment of the connection_err counter. *)
Theorem connection_error_502 (self : FCMRouter) (n : Notification)
    (rd : pydict) (w : World) (req : gateway_request) (e : string) :
  gateway_calls (snd (_route self n rd w)) = gateway_calls w ++ [req] ->
  fcm self req = GwConnectionError e ->
  fst (_route self n rd w) = Raise (RouterExc (server_error 502 false))
  /\ metrics (snd (_route self n rd w))
     = metrics w ++ ["updates.client.bridge.fcm.connection_err"].
Proof.
  intros Hsent Hgw.
  destruct (route_sent _ _ _ _ _ Hsent) as (w1 & _ & _ & Hm & _ & _ & _ & _ & Hout).
  rewrite Hgw in Hout.
  destruct (_route self n rd w) as [res w']. inversion Hout; subst.
  split; [reflexivity|]. cbn [snd metrics record_log record_metric record_call].
  now rewrite Hm.
Qed.

Lemma connection_error_502_witness :
  let self := ex_router None (always (GwConnectionError "timed out")) in
  let out := _route self (ex_notification None None) ex_router_data
               empty_world in
  fst out = Raise (RouterExc (server_error 502 false))
  /\ metrics (snd out)
     = metrics empty_world ++ ["updates.client.bridge.fcm.connection_err"].
Proof.
  apply (connection_error_502
           (ex_router None (always (GwConnectionError "timed out")))
           (ex_notification None None) ex_router_data empty_world
           (ex_request 60) "timed out").
  - vm_compute. reflexivity.
  - reflexivity.
Defined.

(** An authentication error, or any other exception, of the gateway client
    ends the dispatch in the router failure with message Server error and
    status 500; the last thing logged is one entry at error level that
    names the exception, and no counter is incremented. *)
Theorem gateway_error_500 (self : FCMRouter) (n : Notification)
    (rd : pydict) (w : World) (req : gateway_request) (e : string) :
  gateway_calls (snd (_route self n rd w)) = gateway_calls w ++ [req] ->
  fcm self req = GwAuthenticationError e \/ fcm self req = GwException e ->
  exists exc earlier text,
    fst (_route self n rd w) = Raise (RouterExc exc)
    /\ exc_message exc = "Server error"
    /\ exc_status_code exc = 500
    /\ metrics (snd (_route self n rd w)) = metrics w
    /\ logs (snd (_route self n rd w))
       = earlier ++ [{| log_lvl := Error;
                        log_format := text +:+ e;
                        log_fields := [] |}]
    /\ (fcm self req = GwAuthenticationError e ->
        text = "Authentication Error: ")
    /\ (fcm self req = GwException e -> text = "Unhandled FCM Error: ").
Proof.
  intros Hsent Hgw.
  destruct (route_sent _ _ _ _ _ Hsent) as (w1 & _ & _ & Hm & _ & _ & _ & _ & Hout).
  destruct (_route self n rd w) as [res w'].
  destruct Hgw as [Hgw | Hgw]; rewrite Hgw in Hout; inversion Hout; subst;
    eexists _, (logs w1), _; cbn [fst snd metrics logs record_log record_call];
    repeat split; try exact Hm; try reflexivity;
    rewrite Hgw; discriminate.
Qed.

Lemma gateway_error_500_witness :
  let self := ex_router None (always (GwAuthenticationError "bad key")) in
  let out := _route self (ex_notification None None) ex_router_data
               empty_world in
  exists exc earlier text,
    fst out = Raise (RouterExc exc)
    /\ exc_message exc = "Server error"
    /\ exc_status_code exc = 500
    /\ metrics (snd out) = metrics empty_world
    /\ logs (snd out)
       = earlier ++ [{| log_lvl := Error;
                        log_format := text +:+ "bad key";
                        log_fields := [] |}]
    /\ (fcm self (ex_request 60) = GwAuthenticationError "bad key" ->
        text = "Authentication Error: ")
    /\ (fcm self (ex_request 60) = GwException "bad key" ->
        text = "Unhandled FCM Error: ").
Proof.
  apply (gateway_error_500
           (ex_router None (always (GwAuthenticationError "bad key")))
           (ex_notification None None) ex_router_data empty_world
           (ex_request 60) "bad key").
  - vm_compute. reflexivity.
  - left. reflexivity.
Defined.

(** ** Dispatch: the request that is sent *)

(** The time to live of every request is at most 2419200 and, when the
    configured floor does not exceed that maximum, at least the floor; a
    requested TTL between floor and maximum is sent unchanged. *)
Theorem gateway_ttl_bounds (self : FCMRouter) (n : Notification)
    (rd : pydict) (w : World) (req : gateway_request) :
  gateway_calls (snd (_route self n rd w)) = gateway_calls w ++ [req] ->
  time_to_live req <= 2419200
  /\ (min_ttl self <= 2419200 -> min_ttl self <= time_to_live req)
  /\ (forall t, ttl n = Some t -> min_ttl self <= t <= 2419200 ->
       time_to_live req = t).
Proof.
  intros Hsent.
  destruct (route_sent _ _ _ _ _ Hsent) as (w1 & _ & _ & _ & _ & _ & _ & Httl & _).
  rewrite Httl. split; [lia|]. split; [lia|].
  intros t -> Ht. cbn [from_option id]. lia.
Qed.

Lemma gateway_ttl_bounds_witness :
  time_to_live (ex_request 60) <= 2419200
  /\ (min_ttl (ex_router None (answering ∅)) <= 2419200 ->
      min_ttl (ex_router None (answering ∅)) <= time_to_live (ex_request 60))
  /\ (forall t, ttl (ex_notification None None) = Some t ->
       min_ttl (ex_router None (answering ∅)) <= t <= 2419200 ->
       time_to_live (ex_request 60) = t).
Proof.
  apply (gateway_ttl_bounds (ex_router None (answering ∅))
           (ex_notification None None) ex_router_data empty_world
           (ex_request 60)).
  vm_compute. reflexivity.
Defined.

(** Every request is addressed to the token of the routing data, which is
    then truthy (present, not None, not empty); it carries the configured
    collapse key, and it is a dry run exactly when the router is
    configured so or the routing data has a dryrun key, whatever the
    value under that key. *)
Theorem gateway_request_addressing (self : FCMRouter) (n : Notification)
    (rd : pydict) (w : World) (req : gateway_request) :
  gateway_calls (snd (_route self n rd w)) = gateway_calls w ++ [req] ->
  registration_id req = dict_get rd "token"
  /\ truthy (registration_id req) = true
  /\ collapse_key req = collapseKey self
  /\ (dry_run req = true <-> dryRun self = true \/ is_Some (rd !! "dryrun")).
Proof.
  intros Hsent.
  destruct (route_sent _ _ _ _ _ Hsent)
    as (w1 & Htok & _ & _ & Hck & Hdry & Hreg & _ & _).
  rewrite Hreg, Hdry. repeat split; try assumption.
  - intros [H|H]%orb_true_iff; [now left | right].
    now apply bool_decide_eq_true_1 in H.
  - intros [H|H]; apply orb_true_iff; [now left | right].
    now apply bool_decide_eq_true_2.
Qed.

Lemma gateway_request_addressing_witness :
  registration_id (ex_request 60) = dict_get ex_router_data "token"
  /\ truthy (registration_id (ex_request 60)) = true
  /\ collapse_key (ex_request 60) = collapseKey (ex_router None (answering ∅))
  /\ (dry_run (ex_request 60) = true <->
      dryRun (ex_router None (answering ∅)) = true
      \/ is_Some (ex_router_data !! "dryrun")).
Proof.
  apply (gateway_request_addressing (ex_router None (answering ∅))
           (ex_notification None None) ex_router_data empty_world
           (ex_request 60)).
  vm_compute. reflexivity.
Defined.

Lemma counter_app (name : string) (w w' : World) (l : list string) :
  metrics w' = metrics w ++ l ->
  counter name w' = (counter name w + count_occ string_dec l name)%nat.
Proof. intros H. unfold counter. rewrite H. apply count_occ_app. Qed.

(** The attempted counter is incremented once when the gateway client has
    returned a reply, whatever reply processing then does, and not at all
    when the client has raised or has not been called. *)
Theorem attempted_counter (self : FCMRouter) (n : Notification)
    (rd : pydict) (w : World) :
  let out := _route self n rd w in
  let attempted := "updates.client.bridge.fcm.attempted" in
  (forall req reply,
     gateway_calls (snd out) = gateway_calls w ++ [req] ->
     fcm self req = GwReply reply ->
     counter attempted (snd out) = S (counter attempted w))
  /\ (forall req,
        gateway_calls (snd out) = gateway_calls w ++ [req] ->
        (forall reply, fcm self req <> GwReply reply) ->
        counter attempted (snd out) = counter attempted w)
  /\ (gateway_calls (snd out) = gateway_calls w ->
      counter attempted (snd out) = counter attempted w).
Proof.
  intros out attempted. subst out attempted. split; [|split].
  - intros req reply Hsent Hgw.
    destruct (route_sent _ _ _ _ _ Hsent)
      as (w1 & _ & _ & Hm & _ & _ & _ & _ & Hout).
    rewrite Hgw in Hout.
    destruct (_route self n rd w) as [res w']. cbn [snd].
    symmetry in Hout.
    destruct (process_reply_counter_inv _ _ _ _ _ _ _ _ Hout)
      as (l & Hl & Hin & _).
    rewrite (counter_app _ _ _ _ Hl), counter_record_metric.
    rewrite decide_True by reflexivity.
    unfold counter at 1. cbn [metrics record_call]. rewrite Hm.
    fold (counter "updates.client.bridge.fcm.attempted" w).
    destruct Hin as [-> | (c & -> & Hc)]; [cbn; lia|].
    cbn in Hc. cbn [count_occ].
    destruct Hc as [<- | [<- | [<- | []]]];
      (destruct (string_dec _ _) as [Heq|_]; [discriminate Heq | lia]).
  - intros req Hsent Hgw.
    destruct (route_sent _ _ _ _ _ Hsent)
      as (w1 & _ & _ & Hm & _ & _ & _ & _ & Hout).
    destruct (_route self n rd w) as [res w']. cbn [snd].
    destruct (fcm self req) as [e|e|e|reply];
      [| | | now destruct (Hgw reply)];
      inversion Hout; subst; unfold counter;
      cbn [metrics record_log record_metric record_call]; rewrite Hm;
      try reflexivity.
    rewrite count_occ_app. cbn [count_occ].
    destruct (string_dec _ _) as [Heq|_]; [discriminate Heq | lia].
  - intros Hsame. unfold counter.
    now rewrite (proj1 (route_unsent _ _ _ _ Hsame)).
Qed.

Lemma attempted_counter_witness :
  let self := ex_router None (answering (reply_of_error "QuotaExceeded")) in
  let out := _route self (ex_notification None None) ex_router_data
               empty_world in
  counter "updates.client.bridge.fcm.attempted" (snd out)
  = S (counter "updates.client.bridge.fcm.attempted" empty_world).
Proof.
  refine (proj1 (attempted_counter
                   (ex_router None (answering (reply_of_error "QuotaExceeded")))
                   (ex_notification None None) ex_router_data empty_world)
            (ex_request 60) (reply_of_error "QuotaExceeded") _ _).
  - vm_compute. reflexivity.
  - reflexivity.
Defined.

(** ** Dispatch: rejections before the gateway *)

(** Routing data whose token is missing, None or the empty string is
    refused with status 410, errno 106, not logged as an exception; the
    gateway is not called and no counter is incremented. *)
Theorem dispatch_missing_token (self : FCMRouter) (n : Notification)
    (rd : pydict) (w : World) :
  rd !! "token" = None \/ rd !! "token" = Some PyNone
  \/ rd !! "token" = Some (PyStr EmptyString) ->
  _route self n rd w
  = (Raise (RouterExc no_token_failure),
     record_log
       {| log_lvl := Debug;
          log_format := "No registration token found. Rejecting message.";
          log_fields := [("errno", PyInt 106);
                         ("log_exception", PyBool false)] |} w).
Proof.
  intros Htok.
  assert (Hfalse : truthy (dict_get rd "token") = false).
  { unfold dict_get. destruct Htok as [-> | [-> | ->]]; reflexivity. }
  unfold _route. rewrite Hfalse. reflexivity.
Qed.

Lemma dispatch_missing_token_witness :
  _route (ex_router None (answering ∅)) (ex_notification (Some "payload") None)
    {[ "token" := PyStr EmptyString ]} empty_world
  = (Raise (RouterExc no_token_failure),
     record_log
       {| log_lvl := Debug;
          log_format := "No registration token found. Rejecting message.";
          log_fields := [("errno", PyInt 106);
                         ("log_exception", PyBool false)] |} empty_world).
Proof.
  apply (dispatch_missing_token (ex_router None (answering ∅))
           (ex_notification (Some "payload") None)
           {[ "token" := PyStr EmptyString ]} empty_world).
  right. right. vm_compute. reflexivity.
Defined.

(** ** Dispatch: the payload *)

(** A notification with data (at most max_data bytes, exactly max_data
    included) and the two encryption headers reaches the gateway with a
    message holding the channel id, the data as body, the encoding as con
    and the encryption as enc; the crypto_key header becomes cryptokey,
    and the encryption_key header becomes enckey only when there is no
    crypto_key header; the message has no other key. *)
Theorem payload_message_fields (self : FCMRouter) (n : Notification)
    (rd : pydict) (w : World) (body con enc : string) :
  truthy (dict_get rd "token") = true ->
  data n = Some body ->
  body <> EmptyString ->
  Z.of_nat (String.length body) <= default 4096 (conf_max_data (config self)) ->
  headers n !! "encoding" = Some con ->
  headers n !! "encryption" = Some enc ->
  exists req,
    gateway_calls (snd (_route self n rd w)) = gateway_calls w ++ [req]
    /\ data_message req !! "chid" = Some (PyStr (channel_id_hex n))
    /\ data_message req !! "body" = Some (PyStr body)
    /\ data_message req !! "con" = Some (PyStr con)
    /\ data_message req !! "enc" = Some (PyStr enc)
    /\ data_message req !! "cryptokey" = PyStr <$> headers n !! "crypto_key"
    /\ data_message req !! "enckey"
       = match headers n !! "crypto_key" with
         | Some _ => None
         | None => PyStr <$> headers n !! "encryption_key"
         end
    /\ forall k, ~ In k ["chid"; "body"; "con"; "enc"; "cryptokey"; "enckey"] ->
                 data_message req !! k = None.
Proof.
  intros Htok Hdata Hne Hlen Hcon Henc.
  assert (Htruthy : bytes_truthy (Some body) = true).
  { simpl. destruct (String.eqb_spec body EmptyString);
      [contradiction | reflexivity]. }
  apply Z.ltb_ge in Hlen.
  unfold _route. rewrite Htok, Hdata, Htruthy. cbn [negb from_option id].
  rewrite Hlen. unfold getitem. rewrite Hcon, Henc.
  unfold when, mbind, M_bind, mret, M_ret, notify_single_device, increment.
  cbv beta iota.
  destruct (headers n !! "crypto_key") as [ck|];
    [|destruct (headers n !! "encryption_key") as [ek|]];
    cbv beta iota;
    match goal with
    | |- context [fcm self ?req] => exists req
    end;
    (split;
     [destruct (fcm self _); try reflexivity;
      rewrite ngc_process_reply; reflexivity|]);
    cbn [data_message fmap option_fmap option_map];
    repeat split;
    try (intros k Hk; cbn [In] in Hk);
    simplify_map_eq; try reflexivity;
    repeat (rewrite lookup_insert_ne by (intros <-; tauto));
    apply lookup_singleton_ne; intros <-; tauto.
Qed.

Lemma payload_message_fields_witness :
  let n := ex_notification_with (Some "payload")
             {[ "encoding" := "aesgcm"; "encryption" := "salt=abc";
                "crypto_key" := "dh=xyz"; "encryption_key" := "old=key" ]} in
  exists req,
    gateway_calls (snd (_route (ex_router None (answering ∅)) n
                          ex_router_data empty_world))
    = gateway_calls empty_world ++ [req]
    /\ data_message req !! "chid" = Some (PyStr (channel_id_hex n))
    /\ data_message req !! "body" = Some (PyStr "payload")
    /\ data_message req !! "con" = Some (PyStr "aesgcm")
    /\ data_message req !! "enc" = Some (PyStr "salt=abc")
    /\ data_message req !! "cryptokey" = PyStr <$> headers n !! "crypto_key"
    /\ data_message req !! "enckey"
       = match headers n !! "crypto_key" with
         | Some _ => None
         | None => PyStr <$> headers n !! "encryption_key"
         end
    /\ forall k, ~ In k ["chid"; "body"; "con"; "enc"; "cryptokey"; "enckey"] ->
                 data_message req !! k = None.
Proof.
  apply (payload_message_fields (ex_router None (answering ∅))
           (ex_notification_with (Some "payload")
              {[ "encoding" := "aesgcm"; "encryption" := "salt=abc";
                 "crypto_key" := "dh=xyz"; "encryption_key" := "old=key" ]})
           ex_router_data empty_world "payload" "aesgcm" "salt=abc").
  - vm_compute. reflexivity.
  - reflexivity.
  - discriminate.
  - vm_compute. discriminate.
  - vm_compute. reflexivity.
  - vm_compute. reflexivity.
Defined.

(** A notification without data (None or the empty string) reaches the
    gateway with a message that holds the channel id and nothing else; its
    headers are not read. *)
Theorem no_payload_message (self : FCMRouter) (n : Notification)
    (rd : pydict) (w : World) :
  truthy (dict_get rd "token") = true ->
  data n = None \/ data n = Some EmptyString ->
  exists req,
    gateway_calls (snd (_route self n rd w)) = gateway_calls w ++ [req]
    /\ data_message req = {[ "chid" := PyStr (channel_id_hex n) ]}.
Proof.
  intros Htok Hdata.
  assert (Hfalsy : bytes_truthy (data n) = false)
    by (destruct Hdata as [-> | ->]; reflexivity).
  unfold _route. rewrite Htok, Hfalsy. cbn [negb].
  unfold when, mbind, M_bind, mret, M_ret, notify_single_device, increment.
  cbv beta iota.
  match goal with
  | |- context [fcm self ?req] => exists req
  end.
  split; [|reflexivity].
  destruct (fcm self _); try reflexivity.
  rewrite ngc_process_reply. reflexivity.
Qed.

Lemma no_payload_message_witness :
  let n := ex_notification_with (Some EmptyString) ∅ in
  exists req,
    gateway_calls (snd (_route (ex_router None (answering ∅)) n
                          ex_router_data empty_world))
    = gateway_calls empty_world ++ [req]
    /\ data_message req = {[ "chid" := PyStr (channel_id_hex n) ]}.
Proof.
  apply (no_payload_message (ex_router None (answering ∅))
           (ex_notification_with (Some EmptyString) ∅)
           ex_router_data empty_world).
  - vm_compute. reflexivity.
  - right. reflexivity.
Defined.

(** A notification with data but without the encoding header, or with it
    but without the encryption header, ends the dispatch in [KeyError] on
    that header: the gateway is not called and nothing is logged or
    counted. *)
Theorem payload_missing_header (self : FCMRouter) (n : Notification)
    (rd : pydict) (w : World) (body : string) :
  truthy (dict_get rd "token") = true ->
  data n = Some body ->
  body <> EmptyString ->
  Z.of_nat (String.length body) <= default 4096 (conf_max_data (config self)) ->
  (headers n !! "encoding" = None ->
   _route self n rd w = (Raise (KeyError (PyStr "encoding")), w))
  /\ (is_Some (headers n !! "encoding") ->
      headers n !! "encryption" = None ->
      _route self n rd w = (Raise (KeyError (PyStr "encryption")), w)).
Proof.
  intros Htok Hdata Hne Hlen.
  assert (Htruthy : bytes_truthy (Some body) = true).
  { simpl. destruct (String.eqb_spec body EmptyString);
      [contradiction | reflexivity]. }
  apply Z.ltb_ge in Hlen.
  unfold _route. rewrite Htok, Hdata, Htruthy. cbn [negb from_option id].
  rewrite Hlen. unfold getitem.
  split.
  - intros ->. reflexivity.
  - intros [con ->] ->. reflexivity.
Qed.

Lemma payload_missing_header_witness :
  _route (ex_router None (answering ∅))
    (ex_notification_with (Some "payload") {[ "encoding" := "aesgcm" ]})
    ex_router_data empty_world
  = (Raise (KeyError (PyStr "encryption")), empty_world).
Proof.
  refine (proj2 (payload_missing_header (ex_router None (answering ∅))
                   (ex_notification_with (Some "payload")
                      {[ "encoding" := "aesgcm" ]})
                   ex_router_data empty_world "payload" _ _ _ _) _ _).
  - vm_compute. reflexivity.
  - reflexivity.
  - discriminate.
  - vm_compute. discriminate.
  - exists "aesgcm". vm_compute. reflexivity.
  - vm_compute. reflexivity.
Defined.

(** ** Registration, and what follows from it *)

Lemma register_ok (self : FCMRouter) (uaid : string) (rd : pydict)
    (app_id : string) (uri : option string) (w : World) :
  is_Some (rd !! "token") -> senderID self = Some app_id ->
  register self uaid rd app_id uri w
  = (Ok (<["creds" := creds_of self]> rd), w).
Proof.
  intros Htok Hsender. unfold register, when, creds_of.
  rewrite (bool_decide_eq_true_2 _ Htok).
  rewrite bool_decide_eq_true_2 by congruence.
  reflexivity.
Qed.

Lemma register_ok_inv (self : FCMRouter) (uaid : string) (rd : pydict)
    (app_id : string) (uri : option string) (w : World) (rd' : pydict)
    (w' : World) :
  register self uaid rd app_id uri w = (Ok rd', w') ->
  is_Some (rd !! "token") /\ senderID self = Some app_id /\ w' = w
  /\ rd' = <["creds" := creds_of self]> rd.
Proof.
  unfold register, when, _error, creds_of. intros Hrun.
  destruct (bool_decide (is_Some (rd !! "token"))) eqn:Htok;
    [|discriminate].
  destruct (bool_decide (Some app_id = senderID self)) eqn:Hsender;
    [|discriminate].
  apply bool_decide_eq_true_1 in Htok, Hsender.
  unfold mbind, M_bind, mret, M_ret in Hrun. cbn [negb] in Hrun.
  inversion Hrun; subst. repeat split; done.
Qed.

Lemma route_falsy_token (self : FCMRouter) (n : Notification) (rd : pydict)
    (w : World) :
  truthy (dict_get rd "token") = false ->
  fst (_route self n rd w) = Raise (RouterExc no_token_failure).
Proof. intros Hfalse. unfold _route. rewrite Hfalse. reflexivity. Qed.

Lemma register_sender_mismatch_witness :
  exists e w',
    register (ex_router None (answering ∅)) "uaid-1"
      {[ "token" := PyStr "device-token" ]} "another-sender" None empty_world
    = (Raise (RouterExc e), w')
    /\ exc_status_code e = 410 /\ exc_errno e = Some 105.
Proof.
  apply (register_sender_mismatch (ex_router None (answering ∅)) "uaid-1"
           {[ "token" := PyStr "device-token" ]} "another-sender" None
           empty_world).
  - exists (PyStr "device-token"). vm_compute. reflexivity.
  - discriminate.
Defined.

(** Registering again the routing data a successful registration has
    produced succeeds and changes nothing: the same routing data, no log,
    no metric. *)
Theorem register_idempotent (self : FCMRouter) (uaid : string) (rd : pydict)
    (app_id : string) (uri : option string) (w : World) (rd' : pydict)
    (w' : World) :
  register self uaid rd app_id uri w = (Ok rd', w') ->
  forall uaid2 uri2 w2,
    register self uaid2 rd' app_id uri2 w2 = (Ok rd', w2).
Proof.
  intros Hrun uaid2 uri2 w2.
  apply register_ok_inv in Hrun as ([tok Htok] & Hsender & _ & ->).
  rewrite register_ok; [|rewrite lookup_insert_ne by done; eauto|exact Hsender].
  now rewrite insert_insert_eq.
Qed.

Lemma register_idempotent_witness :
  register (ex_router None (answering ∅)) "uaid-2"
    (<["creds" := creds_of (ex_router None (answering ∅))]>
       {[ "token" := PyStr "device-token" ]}) "sender-1" None empty_world
  = (Ok (<["creds" := creds_of (ex_router None (answering ∅))]>
           {[ "token" := PyStr "device-token" ]}), empty_world).
Proof.
  apply (register_idempotent (ex_router None (answering ∅)) "uaid-1"
           {[ "token" := PyStr "device-token" ]} "sender-1" None empty_world
           _ empty_world).
  vm_compute. reflexivity.
Defined.

(** Registration never increments a metric and never calls the gateway,
    whether it succeeds or fails. *)
Theorem register_only_logs (self : FCMRouter) (uaid : string) (rd : pydict)
    (app_id : string) (uri : option string) (w : World) :
  metrics (snd (register self uaid rd app_id uri w)) = metrics w
  /\ gateway_calls (snd (register self uaid rd app_id uri w))
     = gateway_calls w.
Proof.
  assert (H : log_only (register self uaid rd app_id uri))
    by (unfold register; auto 20 with lo).
  destruct (H w). split; assumption.
Qed.

(** After a successful registration, [amend_endpoint_response] puts the
    caller's sender identity, which is the configured one, under senderid
    in the response and leaves every other key of the response alone. *)
Theorem register_then_amend (self : FCMRouter) (uaid : string) (rd : pydict)
    (app_id : string) (uri : option string) (w : World) (rd' : pydict)
    (w' : World) (response : pydict) (w2 : World) :
  register self uaid rd app_id uri w = (Ok rd', w') ->
  amend_endpoint_response response rd' w2
  = (Ok (<["senderid" := PyStr app_id]> response), w2)
  /\ forall k, k <> "senderid" ->
       (<["senderid" := PyStr app_id]> response) !! k = response !! k.
Proof.
  intros Hrun.
  apply register_ok_inv in Hrun as (_ & Hsender & _ & ->).
  split; [|intros k Hk; now rewrite lookup_insert_ne].
  unfold amend_endpoint_response, dict_get_default, creds_of.
  rewrite lookup_insert_eq. cbn [from_option id].
  unfold mbind, M_bind, py_get, dict_get_default, mret, M_ret.
  rewrite lookup_insert_eq. cbn [from_option id]. rewrite Hsender.
  reflexivity.
Qed.

Lemma register_then_amend_witness :
  amend_endpoint_response {[ "endpoint" := PyStr "https://push.example.org/v1/abc" ]}
    (<["creds" := creds_of (ex_router None (answering ∅))]>
       {[ "token" := PyStr "device-token" ]}) empty_world
  = (Ok (<["senderid" := PyStr "sender-1"]>
           {[ "endpoint" := PyStr "https://push.example.org/v1/abc" ]}),
     empty_world)
  /\ forall k, k <> "senderid" ->
       (<["senderid" := PyStr "sender-1"]>
          ({[ "endpoint" := PyStr "https://push.example.org/v1/abc" ]} : pydict))
         !! k
       = ({[ "endpoint" := PyStr "https://push.example.org/v1/abc" ]} : pydict)
           !! k.
Proof.
  apply (register_then_amend (ex_router None (answering ∅)) "uaid-1"
           {[ "token" := PyStr "device-token" ]} "sender-1" None empty_world
           _ empty_world).
  vm_compute. reflexivity.
Defined.

(** [amend_endpoint_response] on routing data that was never registered:
    without a creds key the response gets senderid = None; with a creds
    record it gets the record's senderID (None when the record has none);
    with creds that is not a record it raises [AttributeError]. *)
Theorem amend_endpoint_response_cases (response rd : pydict) (w : World) :
  (rd !! "creds" = None ->
   amend_endpoint_response response rd w
   = (Ok (<["senderid" := PyNone]> response), w))
  /\ (forall c, rd !! "creds" = Some (PyDict c) ->
       amend_endpoint_response response rd w
       = (Ok (<["senderid" := dict_get c "senderID"]> response), w))
  /\ (forall v, rd !! "creds" = Some v ->
       (forall c, v <> PyDict c) ->
       amend_endpoint_response response rd w = (Raise AttributeError, w)).
Proof.
  unfold amend_endpoint_response, dict_get_default, dict_get.
  split; [|split].
  - intros ->. reflexivity.
  - intros c ->. reflexivity.
  - intros v -> Hv. destruct v; try reflexivity. now destruct (Hv d).
Qed.

Lemma amend_endpoint_response_cases_witness :
  amend_endpoint_response ∅ {[ "token" := PyStr "device-token" ]} empty_world
  = (Ok (<["senderid" := PyNone]> ∅), empty_world).
Proof.
  refine (proj1 (amend_endpoint_response_cases
                   ∅ {[ "token" := PyStr "device-token" ]} empty_world) _).
  vm_compute. reflexivity.
Defined.

(** Routing data with an empty token passes registration (with a matching
    sender identity), but every later dispatch for the registered routing
    data is refused with status 410, errno 106. *)
Theorem register_empty_token_then_dispatch (self : FCMRouter) (uaid : string)
    (rd : pydict) (app_id : string) (uri : option string) (w : World) :
  rd !! "token" = Some (PyStr EmptyString) ->
  senderID self = Some app_id ->
  exists rd',
    register self uaid rd app_id uri w = (Ok rd', w)
    /\ forall n w2,
         fst (_route self n rd' w2) = Raise (RouterExc no_token_failure).
Proof.
  intros Htok Hsender. eexists. split.
  - apply register_ok; [eauto | exact Hsender].
  - intros n w2. apply route_falsy_token.
    unfold dict_get. rewrite lookup_insert_ne by done. now rewrite Htok.
Qed.

Lemma register_empty_token_then_dispatch_witness :
  exists rd',
    register (ex_router None (answering ∅)) "uaid-1"
      {[ "token" := PyStr EmptyString ]} "sender-1" None empty_world
    = (Ok rd', empty_world)
    /\ forall n w2,
         fst (_route (ex_router None (answering ∅)) n rd' w2)
         = Raise (RouterExc no_token_failure).
Proof.
  apply (register_empty_token_then_dispatch (ex_router None (answering ∅))
           "uaid-1" {[ "token" := PyStr EmptyString ]} "sender-1" None
           empty_world).
  - vm_compute. reflexivity.
  - reflexivity.
Defined.

(** For routing data that a successful registration has produced, a
    failure reply whose reason resolves to a non-critical entry always
    gets the response of that entry: the creds the informational log
    reads are there. *)
Theorem registered_soft_failure (self : FCMRouter) (uaid : string)
    (rd : pydict) (app_id : string) (uri : option string) (w w' : World)
    (rd' : pydict) (reply : pydict) (n : Notification) (t : Z) (w2 : World)
    (r_d : pydict) (reason : string) (entry : ReasonEntry) :
  register self uaid rd app_id uri w = (Ok rd', w') ->
  first_result reply (PyDict r_d) ->
  truthy (dict_get reply "canonical_ids") = false ->
  truthy (dict_get reply "failure") = true ->
  dict_get_default r_d "error" (PyStr "Unreported") = PyStr reason ->
  reasonTable !! reason = Some entry ->
  default false (crit entry) = false ->
  fst (_process_reply self reply n rd' t w2)
  = Ok {| resp_status_code := err entry;
          resp_response_body := msg entry;
          resp_router_data := Some ∅;
          resp_headers := None;
          resp_errno := Some (errno entry);
          resp_logged_status := None |}.
Proof.
  intros Hreg Hres Hcanon Hfail Herr Hentry Hcrit.
  apply register_ok_inv in Hreg as (_ & _ & _ & ->).
  rewrite (failure_branch_resolved _ _ _ _ _ _ r_d Hres Hcanon Hfail
             reason entry Herr Hentry).
  rewrite Hcrit.
  unfold mbind, M_bind, getitem, creds_of. rewrite lookup_insert_eq.
  reflexivity.
Qed.

Lemma registered_soft_failure_witness :
  fst (_process_reply (ex_router None (answering ∅))
         (reply_of_error "NotRegistered") (ex_notification None None)
         (<["creds" := creds_of (ex_router None (answering ∅))]>
            {[ "token" := PyStr "device-token" ]}) 60 empty_world)
  = Ok {| resp_status_code := 410;
          resp_response_body := "device has unregistered with FCM: {regid}";
          resp_router_data := Some ∅;
          resp_headers := None;
          resp_errno := Some 103;
          resp_logged_status := None |}.
Proof.
  apply (registered_soft_failure (ex_router None (answering ∅)) "uaid-1"
           {[ "token" := PyStr "device-token" ]} "sender-1" None
           empty_world empty_world _ (reply_of_error "NotRegistered")
           (ex_notification None None) 60 empty_world
           {[ "error" := PyStr "NotRegistered" ]} "NotRegistered"
           {| msg := "device has unregistered with FCM: {regid}";
              err := 410; errno := 103; crit := None |}).
  - vm_compute. reflexivity.
  - right. exists []. vm_compute. reflexivity.
  - vm_compute. reflexivity.
  - vm_compute. reflexivity.
  - vm_compute. reflexivity.
  - vm_compute. reflexivity.
  - reflexivity.
Defined.

(** A dispatch returns a response only after the gateway client has been
    called once and has returned a reply; the response is then the one
    reply processing gives for that reply and the request's time to
    live. *)
Theorem response_needs_gateway_reply (self : FCMRouter) (n : Notification)
    (rd : pydict) (w : World) (resp : RouterResponse) :
  fst (_route self n rd w) = Ok resp ->
  exists req reply w1,
    gateway_calls (snd (_route self n rd w)) = gateway_calls w ++ [req]
    /\ fcm self req = GwReply reply
    /\ fst (_process_reply self reply n rd (time_to_live req) w1) = Ok resp.
Proof.
  destruct (_route self n rd w) as [res w'] eqn:Hrun. cbn [fst snd].
  intros ->.
  destruct (route_inv _ _ _ _ _ _ Hrun)
    as [(_ & _ & e & He) | (req & Hcalls & w1 & _ & _ & _ & _ & _ & _ & _ & Hout)];
    [discriminate|].
  destruct (fcm self req) as [e|e|e|reply] eqn:Hgw; try discriminate.
  exists req, reply. eexists. split; [exact Hcalls|]. split; [exact Hgw|].
  now rewrite <- Hout.
Qed.

Lemma response_needs_gateway_reply_witness :
  let reply : pydict := {[ "results" := PyList [PyDict ∅] ]} in
  let self := ex_router None (answering reply) in
  exists req reply' w1,
    gateway_calls (snd (_route self (ex_notification None None)
                          ex_router_data empty_world))
    = gateway_calls empty_world ++ [req]
    /\ fcm self req = GwReply reply'
    /\ fst (_process_reply self reply' (ex_notification None None)
              ex_router_data (time_to_live req) w1)
       = Ok {| resp_status_code := 201;
               resp_response_body := EmptyString;
               resp_router_data := None;
               resp_headers :=
                 Some {[ "TTL" := PyInt 60;
                         "Location" := PyStr "https://push.example.org/m/v1" ]};
               resp_errno := None;
               resp_logged_status := Some 200 |}.
Proof.
  apply (response_needs_gateway_reply
           (ex_router None (answering {[ "results" := PyList [PyDict ∅] ]}))
           (ex_notification None None) ex_router_data empty_world).
  vm_compute. reflexivity.
Defined.

(** ** Reply processing: the re-registration branch *)

(** A reply with both canonical_ids and failure set is treated as a
    re-registration: the 503 response is returned, the rereg counter is
    incremented and the failed counter is not, and the reason of the
    failure is never looked up. *)
Theorem rereg_precedes_failure (self : FCMRouter) (reply : pydict)
    (n : Notification) (rd : pydict) (t : Z) (w : World) (r_d : pydict)
    (old_id : pyvalue) :
  first_result reply (PyDict r_d) ->
  truthy (dict_get reply "canonical_ids") = true ->
  truthy (dict_get reply "failure") = true ->
  rd !! "token" = Some old_id ->
  let out := _process_reply self reply n rd t w in
  (exists resp, fst out = Ok resp /\ resp_status_code resp = 503)
  /\ counter "updates.client.bridge.fcm.failed" (snd out)
     = counter "updates.client.bridge.fcm.failed" w
  /\ counter "updates.client.bridge.fcm.failed.rereg" (snd out)
     = S (counter "updates.client.bridge.fcm.failed.rereg" w).
Proof.
  intros Hres Hcanon Hfail Htok out. subst out.
  enter_reply Hres. rewrite Hcanon.
  unfold getitem. rewrite Htok.
  unfold mbind, M_bind, py_get, log, increment, mret, M_ret.
  cbv beta iota. cbn [fst snd].
  split; [eexists; split; reflexivity|].
  rewrite !counter_record_metric, !counter_record_log.
  rewrite decide_False by discriminate.
  rewrite decide_True by reflexivity.
  split; reflexivity.
Qed.

Lemma rereg_precedes_failure_witness :
  let out := _process_reply (ex_router None (answering ∅))
               {[ "canonical_ids" := PyInt 1; "failure" := PyInt 1;
                  "results" := PyList [PyDict {[ "error" := PyStr "NotRegistered" ]}] ]}
               (ex_notification None None) ex_router_data 60 empty_world in
  (exists resp, fst out = Ok resp /\ resp_status_code resp = 503)
  /\ counter "updates.client.bridge.fcm.failed" (snd out)
     = counter "updates.client.bridge.fcm.failed" empty_world
  /\ counter "updates.client.bridge.fcm.failed.rereg" (snd out)
     = S (counter "updates.client.bridge.fcm.failed.rereg" empty_world).
Proof.
  apply (rereg_precedes_failure (ex_router None (answering ∅))
           {[ "canonical_ids" := PyInt 1; "failure" := PyInt 1;
              "results" := PyList [PyDict {[ "error" := PyStr "NotRegistered" ]}] ]}
           (ex_notification None None) ex_router_data 60 empty_world
           {[ "error" := PyStr "NotRegistered" ]} (PyStr "old-token")).
  - right. exists []. vm_compute. reflexivity.
  - vm_compute. reflexivity.
  - vm_compute. reflexivity.
  - vm_compute. reflexivity.
Defined.

(** A re-registration reply whose first result has no registration_id (in
    particular a reply without results) still gets the 503 response, and
    the routing-data patch then sets the token to None. *)
Theorem rereg_without_registration_id (self : FCMRouter) (reply : pydict)
    (n : Notification) (rd : pydict) (t : Z) (w : World) (r_d : pydict)
    (old_id : pyvalue) :
  first_result reply (PyDict r_d) ->
  r_d !! "registration_id" = None ->
  truthy (dict_get reply "canonical_ids") = true ->
  rd !! "token" = Some old_id ->
  fst (_process_reply self reply n rd t w)
  = Ok {| resp_status_code := 503;
          resp_response_body := "Please try request again.";
          resp_router_data := Some {[ "token" := PyNone ]};
          resp_headers := None;
          resp_errno := None;
          resp_logged_status := None |}.
Proof.
  intros Hres Hnone Hcanon Htok.
  enter_reply Hres. rewrite Hcanon.
  unfold getitem. rewrite Htok.
  unfold mbind, M_bind, py_get, dict_get_default, log, increment, mret, M_ret.
  cbv beta iota. rewrite Hnone. reflexivity.
Qed.

Lemma rereg_without_registration_id_witness :
  fst (_process_reply (ex_router None (answering ∅))
         {[ "canonical_ids" := PyInt 1 ]}
         (ex_notification None None) ex_router_data 60 empty_world)
  = Ok {| resp_status_code := 503;
          resp_response_body := "Please try request again.";
          resp_router_data := Some {[ "token" := PyNone ]};
          resp_headers := None;
          resp_errno := None;
          resp_logged_status := None |}.
Proof.
  apply (rereg_without_registration_id (ex_router None (answering ∅))
           {[ "canonical_ids" := PyInt 1 ]}
           (ex_notification None None) ex_router_data 60 empty_world
           ∅ (PyStr "old-token")).
  - left. split; vm_compute; reflexivity.
  - reflexivity.
  - vm_compute. reflexivity.
  - vm_compute. reflexivity.
Defined.

(** ** Witnesses of earlier lemmas *)

Lemma missing_error_uses_unreported_witness :
  _process_reply (ex_router None (answering ∅))
    {[ "failure" := PyInt 1; "results" := PyList [PyDict ∅] ]}
    (ex_notification (Some "payload") None) ex_router_data 60 empty_world
  = (Raise (RouterExc {| exc_message := "FCM failure to deliver";
                         exc_status_code := 500;
                         exc_response_body := "Please try request later.";
                         exc_log_exception := false;
                         exc_errno := None |}),
     record_log
       {| log_lvl := Critical;
          log_format := "Error has no reported reason.";
          log_fields :=
            [("nlen", PyInt (Z.of_nat (String.length "payload")));
             ("regid", PyStr "old-token");
             ("senderid",
              py_of_opt_str (senderID (ex_router None (answering ∅))));
             ("ttl", py_of_opt_int (ttl (ex_notification (Some "payload")
                                           None)))] |}
       (record_metric "updates.client.bridge.fcm.failed" empty_world)).
Proof.
  apply (missing_error_uses_unreported (ex_router None (answering ∅))
           {[ "failure" := PyInt 1; "results" := PyList [PyDict ∅] ]}
           (ex_notification (Some "payload") None) ex_router_data 60
           empty_world ∅ "payload" (PyStr "old-token")).
  - right. exists []. vm_compute. reflexivity.
  - vm_compute. reflexivity.
  - vm_compute. reflexivity.
  - reflexivity.
  - reflexivity.
  - vm_compute. reflexivity.
Defined.

Lemma router_failure_requires_data_witness :
  no_router_failure
    (_process_reply (ex_router None (answering ∅))
       (reply_of_error "InvalidPackageName") (ex_notification None None)
       ex_router_data 60).
Proof.
  apply (router_failure_requires_data (ex_router None (answering ∅))
           (reply_of_error "InvalidPackageName") (ex_notification None None)
           ex_router_data 60).
  reflexivity.
Defined.


(** ** Construction and the public entry point *)

(** Requests of a router built by [__init__] carry the configured collapse
    key, webpush when none is configured; with no ttl configured their
    time to live lies between 60 and 2419200; with dryrun configured true
    they are dry runs. *)
Theorem init_then_dispatch (settings : Settings) (conf : RouterConf)
    (FCMNotification : option string ->
                       string + (gateway_request -> gateway_outcome))
    (w0 w1 : World) (self : FCMRouter) (n : Notification) (rd : pydict)
    (w : World) (req : gateway_request) :
  __init__ settings conf FCMNotification w0 = (Ok self, w1) ->
  gateway_calls (snd (_route self n rd w)) = gateway_calls w ++ [req] ->
  collapse_key req = default "webpush" (conf_collapseKey conf)
  /\ (conf_ttl conf = None -> 60 <= time_to_live req <= 2419200)
  /\ (conf_dryrun conf = Some true -> dry_run req = true).
Proof.
  intros Hinit Hsent.
  destruct (route_sent _ _ _ _ _ Hsent)
    as (w2 & _ & _ & _ & Hck & Hdry & _ & Httl & _).
  rewrite Hck, Hdry, Httl.
  unfold __init__ in Hinit.
  destruct (FCMNotification _); inversion Hinit; subst.
  cbn [min_ttl collapseKey dryRun].
  split; [reflexivity|]. split.
  - intros ->. cbn [from_option id]. lia.
  - intros ->. reflexivity.
Qed.

Lemma init_then_dispatch_witness :
  collapse_key (ex_request 60)
  = default "webpush" (conf_collapseKey (ex_conf None))
  /\ (conf_ttl (ex_conf None) = None ->
      60 <= time_to_live (ex_request 60) <= 2419200)
  /\ (conf_dryrun (ex_conf None) = Some true -> dry_run (ex_request 60) = true).
Proof.
  apply (init_then_dispatch ex_settings (ex_conf None)
           (fun _ => inr (answering ∅)) empty_world
           (snd (__init__ ex_settings (ex_conf None)
                   (fun _ => inr (answering ∅)) empty_world))
           (ex_router None (answering ∅)) (ex_notification None None)
           ex_router_data empty_world (ex_request 60)).
  - reflexivity.
  - vm_compute. reflexivity.
Defined.

(** ** The repr of a sender identity *)

Example repr_of_plain_sender : repr_str "sender-1" = "'sender-1'".
Proof. reflexivity. Qed.

Example repr_of_escaped_sender :
  repr_str (String (ascii_of_nat 9) (String (ascii_of_nat 200) "\"))
  = "'\t\xc8\\'".
Proof. reflexivity. Qed.

(** ** Dispatch: the effective TTL *)

(** C3.  Whatever TTL the notification asks for (None included), the
    effective TTL of a dispatch is min(2419200, max(min_ttl, ttl or 0)):
    a dispatch that passes the checks of [_route] (a truthy token and, if
    there is data, data within max_data and the two encryption headers)
    calls the gateway with that time to live and hands the same value to
    reply processing; no request of any dispatch carries another value,
    and a dispatch sends at most one request. *)
Theorem effective_ttl_clamp (self : FCMRouter) (n : Notification)
    (rd : pydict) (w : World) :
  let eff := Z.min 2419200 (Z.max (min_ttl self) (default 0 (ttl n))) in
  let out := _route self n rd w in
  (truthy (dict_get rd "token") = true ->
   (bytes_truthy (data n) = true ->
    Z.of_nat (String.length (default EmptyString (data n)))
    <= default 4096 (conf_max_data (config self))
    /\ is_Some (headers n !! "encoding")
    /\ is_Some (headers n !! "encryption")) ->
   exists req,
     gateway_calls (snd out) = gateway_calls w ++ [req]
     /\ time_to_live req = eff
     /\ forall reply,
          fcm self req = GwReply reply ->
          out = _process_reply self reply n rd eff
                  (record_metric "updates.client.bridge.fcm.attempted"
                     (record_call req w)))
  /\ (forall req,
        gateway_calls (snd out) = gateway_calls w ++ [req] ->
        time_to_live req = eff)
  /\ (gateway_calls (snd out) = gateway_calls w
      \/ exists req, gateway_calls (snd out) = gateway_calls w ++ [req]).
Proof.
  intros eff out. subst eff out. split; [|split].
  - intros Htok Hpayload.
    unfold _route. rewrite Htok, or_zero_default. cbn [negb].
    unfold MAX_TTL.
    destruct (bytes_truthy (data n)) eqn:Hdata.
    + destruct (Hpayload eq_refl) as (Hlen & [con Hcon] & [enc Henc]).
      apply Z.ltb_ge in Hlen. rewrite Hlen.
      unfold getitem. rewrite Hcon, Henc.
      unfold when, mbind, M_bind, mret, M_ret, notify_single_device, increment.
      cbv beta iota.
      destruct (headers n !! "crypto_key") as [ck|];
        [|destruct (headers n !! "encryption_key") as [ek|]];
        cbv beta iota;
        match goal with
        | |- context [fcm self ?req] => exists req
        end;
        (split;
         [destruct (fcm self _); try reflexivity;
          rewrite ngc_process_reply; reflexivity|]);
        (split; [reflexivity|]);
        intros reply Hgw; rewrite Hgw; reflexivity.
    + unfold when, mbind, M_bind, mret, M_ret, notify_single_device, increment.
      cbv beta iota.
      match goal with
      | |- context [fcm self ?req] => exists req
      end.
      split;
        [destruct (fcm self _); try reflexivity;
         rewrite ngc_process_reply; reflexivity|].
      split; [reflexivity|].
      intros reply Hgw. rewrite Hgw. reflexivity.
  - intros req Hsent.
    destruct (route_sent _ _ _ _ _ Hsent)
      as (w1 & _ & _ & _ & _ & _ & _ & Httl & _).
    exact Httl.
  - destruct (_route self n rd w) as [res w'] eqn:Hrun. cbn [snd].
    destruct (route_inv _ _ _ _ _ _ Hrun) as [(Hsame & _) | (req & Hcalls & _)];
      [now left | right; eauto].
Qed.

(** The two instances given with the claim: floor 60 and no TTL send 60;
    floor 60 and TTL 99999999 (here with a payload and its headers) send
    2419200. *)
Lemma effective_ttl_clamp_witness :
  let self := ex_router None (answering ∅) in
  (exists req,
     gateway_calls (snd (_route self (ex_notification None None)
                           ex_router_data empty_world))
     = gateway_calls empty_world ++ [req]
     /\ time_to_live req = 60
     /\ forall reply,
          fcm self req = GwReply reply ->
          _route self (ex_notification None None) ex_router_data empty_world
          = _process_reply self reply (ex_notification None None)
              ex_router_data 60
              (record_metric "updates.client.bridge.fcm.attempted"
                 (record_call req empty_world)))
  /\ (exists req,
        gateway_calls (snd (_route self (ex_notification (Some "payload") (Some 99999999))
                              ex_router_data empty_world))
        = gateway_calls empty_world ++ [req]
        /\ time_to_live req = 2419200
        /\ forall reply,
             fcm self req = GwReply reply ->
             _route self (ex_notification (Some "payload") (Some 99999999))
               ex_router_data empty_world
             = _process_reply self reply (ex_notification (Some "payload") (Some 99999999))
                 ex_router_data 2419200
                 (record_metric "updates.client.bridge.fcm.attempted"
                    (record_call req empty_world))).
Proof.
  split.
  - refine (proj1 (effective_ttl_clamp (ex_router None (answering ∅))
                     (ex_notification None None) ex_router_data empty_world)
              _ _).
    + vm_compute. reflexivity.
    + intros H. vm_compute in H. discriminate.
  - refine (proj1 (effective_ttl_clamp (ex_router None (answering ∅))
                     (ex_notification (Some "payload") (Some 99999999)) ex_router_data
                     empty_world) _ _).
    + vm_compute. reflexivity.
    + intros _. split; [vm_compute; discriminate|].
      split; eexists; vm_compute; reflexivity.
Defined.
